(** * PathPredict-AI: the response normalisation layer (utils/apiTransform)

    A shallow embedding of [transformBackendResponse] and of the helper
    computations it calls, followed by the properties of the natural-language
    specification that are settled against it.

    Modelling conventions.
    - A JavaScript number that the code computes from defaulted operands
      ([x || d]) is a rational [Q]; arithmetic is exact, so binary64 rounding
      error, overflow and infinities are not represented.  Where [undefined]
      or an inherited member of a table can reach an arithmetic operator the
      value has type [number], which adds [NaN].
    - [Math.round] is [floor (x + 1/2)], an integer [Z].
    - A raw object is a record whose fields are [option]s: [None] is an
      absent property ([undefined]); for the structural parts, which are only
      tested for truthiness or dereferenced, it stands for [null] as well.
      Numeric fields hold finite numbers and text fields hold strings, as in
      the documented payload.
    - Strings are [string]s of 8-bit code units; case folding and white space
      are the ASCII ones (exact for ASCII text).
    - Object literals used as lookup tables are association lists of their
      own properties; reading a key that is not an own property finds the
      member of that name every object inherits from [Object.prototype]
      ([constructor], [__proto__], [toString], ...), when there is one.
    - The diagnostic [console.log] calls do not affect the result and are
      left out. *)

From Stdlib Require Import ZArith QArith Qround Qminmax Qabs Lia Lqa.
From Stdlib Require Import List String Ascii Bool Sorted.
Import ListNotations.

Set Implicit Arguments.

(* ------------------------------------------------------------------ *)
(** ** JavaScript values used by the transformation *)

Module JS.

Local Open Scope Q_scope.

(** A number that may be [NaN]. *)
Inductive number : Type :=
| Fin (q : Q)
| NaN.

(** An integral number. *)
Definition Int (z : Z) : number := Fin (inject_Z z).

(** ToNumber of a possibly absent numeric property. *)
Definition to_number (x : option Q) : number :=
  match x with
  | Some q => Fin q
  | None => NaN
  end.

Definition num_add (a b : number) : number :=
  match a, b with
  | Fin x, Fin y => Fin (x + y)
  | _, _ => NaN
  end.

Definition num_sub (a b : number) : number :=
  match a, b with
  | Fin x, Fin y => Fin (x - y)
  | _, _ => NaN
  end.

Definition num_mul (a b : number) : number :=
  match a, b with
  | Fin x, Fin y => Fin (x * y)
  | _, _ => NaN
  end.

(** [Math.round] on a finite number: nearest integer, halves upwards. *)
Definition Math_round (q : Q) : Z := Qfloor (q + 0.5).

(** [Math.ceil] on a finite number. *)
Definition Math_ceil (q : Q) : Z := Qceiling q.

(** [Math.round], [Math.min], [Math.max], [Math.abs] where the argument may
    be [NaN]: [NaN] is propagated. *)
Definition num_round (a : number) : number :=
  match a with
  | Fin x => Int (Math_round x)
  | NaN => NaN
  end.

Definition num_min (a b : number) : number :=
  match a, b with
  | Fin x, Fin y => if Qle_bool x y then Fin x else Fin y
  | _, _ => NaN
  end.

Definition num_max (a b : number) : number :=
  match a, b with
  | Fin x, Fin y => if Qle_bool x y then Fin y else Fin x
  | _, _ => NaN
  end.

Definition num_abs (a : number) : number :=
  match a with
  | Fin x => Fin (Qabs x)
  | NaN => NaN
  end.

(** [a <= b] and [a < b] as propositions: false when an operand is [NaN]. *)
Definition num_le (a b : number) : Prop :=
  match a, b with
  | Fin x, Fin y => x <= y
  | _, _ => False
  end.

Definition num_lt (a b : number) : Prop :=
  match a, b with
  | Fin x, Fin y => x < y
  | _, _ => False
  end.

(** [a >= b] on a possibly absent left operand: any comparison with
    [undefined] is false. *)
Definition ge_opt (a : option Q) (b : Q) : bool :=
  match a with
  | Some x => Qle_bool b x
  | None => false
  end.

Definition Qlt_bool (a b : Q) : bool := negb (Qle_bool b a).

(** [x || d] on a numeric property: absent and [0] are falsy. *)
Definition or_num (x : option Q) (d : Q) : Q :=
  match x with
  | Some q => if Qeq_bool q 0 then d else q
  | None => d
  end.

(** [x || d] on an integer table entry. *)
Definition or_int (x : option Z) (d : Z) : Z :=
  match x with
  | Some z => if Z.eqb z 0 then d else z
  | None => d
  end.

Local Open Scope string_scope.

(** Truthiness of a string property: absent and the empty string are
    falsy. *)
Definition truthy (x : option string) : bool :=
  match x with
  | Some s => negb (s =? "")
  | None => false
  end.

(** [x || d] on a string property. *)
Definition or_str (x : option string) (d : string) : string :=
  match x with
  | Some s => if s =? "" then d else s
  | None => d
  end.

(** String conversion of a possibly absent string, as done by a template
    literal and by a computed property key. *)
Definition show (x : option string) : string :=
  match x with
  | Some s => s
  | None => "undefined"
  end.

Definition LF : ascii := "010"%char.

Definition lower_ascii (c : ascii) : ascii :=
  let n := nat_of_ascii c in
  if (65 <=? n)%nat && (n <=? 90)%nat then ascii_of_nat (n + 32) else c.

Fixpoint toLowerCase (s : string) : string :=
  match s with
  | EmptyString => EmptyString
  | String c s' => String (lower_ascii c) (toLowerCase s')
  end.

(** [s.includes(needle)]. *)
Fixpoint includes (s needle : string) : bool :=
  prefix needle s ||
  match s with
  | EmptyString => false
  | String _ s' => includes s' needle
  end.

Definition is_space (c : ascii) : bool :=
  let n := nat_of_ascii c in
  (n =? 32)%nat || ((9 <=? n)%nat && (n <=? 13)%nat).

Fixpoint trimStart (s : string) : string :=
  match s with
  | EmptyString => EmptyString
  | String c s' => if is_space c then trimStart s' else s
  end.

Fixpoint trimEnd (s : string) : string :=
  match s with
  | EmptyString => EmptyString
  | String c s' =>
      let t := trimEnd s' in
      if is_space c && (t =? "") then "" else String c t
  end.

Definition trim (s : string) : string := trimEnd (trimStart s).

(** [s.split('\n')]. *)
Fixpoint split_lines (s : string) : list string :=
  match s with
  | EmptyString => [""]
  | String c s' =>
      if Ascii.eqb c LF then "" :: split_lines s'
      else match split_lines s' with
           | l :: ls => String c l :: ls
           | [] => [String c ""]
           end
  end.

(** [a.join(sep)]. *)
Definition join (sep : string) (a : list string) : string :=
  String.concat sep a.

(** [a.slice(0, n)]. *)
Definition slice0 {A} (n : nat) (a : list A) : list A := firstn n a.

(** The own property [k] of an object literal, if it has one. *)
Fixpoint own {V} (k : string) (tbl : list (string * V)) : option V :=
  match tbl with
  | [] => None
  | (k', v) :: tbl' => if k =? k' then Some v else own k tbl'
  end.

(** The names of the members of [Object.prototype], which every object
    literal inherits.  All of them are functions, but [__proto__], which
    reads as the prototype object itself. *)
Definition prototypeKeys : list string :=
  [ "constructor"; "__proto__"; "hasOwnProperty"; "isPrototypeOf";
    "propertyIsEnumerable"; "toLocaleString"; "toString"; "valueOf";
    "__defineGetter__"; "__defineSetter__"; "__lookupGetter__";
    "__lookupSetter__" ].

Definition inherited (k : string) : bool :=
  existsb (String.eqb k) prototypeKeys.

(** What reading a property finds: a value of the table, or an inherited
    member (a function or an object, never a number or a string). *)
Inductive property (V : Type) : Type :=
| Own (v : V)
| Inherited (key : string).

Arguments Own {V} v.
Arguments Inherited {V} key.

(** [tbl[k]] on an object literal used as a table; [None] is [undefined]. *)
Definition lookup {V} (k : string) (tbl : list (string * V))
    : option (property V) :=
  match own k tbl with
  | Some v => Some (Own v)
  | None => if inherited k then Some (Inherited k) else None
  end.

(** [tbl[k] || d]: an inherited member is truthy and is kept. *)
Definition or_property {V} (falsy : V -> bool) (x : option (property V))
    (d : V) : property V :=
  match x with
  | Some (Own v) => Own (if falsy v then d else v)
  | Some (Inherited k) => Inherited k
  | None => Own d
  end.

Definition is_zero (q : Q) : bool := Qeq_bool q 0.

Definition is_empty (s : string) : bool := s =? "".

(** A table entry as an operand of arithmetic.  An inherited member
    converts to [NaN]; where it is added with [+=] the sum is a text that is
    not numeric, which every later operator and [Math.round] convert to
    [NaN] as well, so [NaN] stands for that text too. *)
Definition entry_number (p : property Q) : number :=
  match p with
  | Own q => Fin q
  | Inherited _ => NaN
  end.

(** A risk value as an operand of arithmetic and of comparisons. *)
Definition score_number (p : property Z) : number :=
  match p with
  | Own z => Int z
  | Inherited _ => NaN
  end.

(** Errors the transformation can end with. *)
Inductive exn : Type :=
| Error (message : string)
| TypeError.

Inductive result (A : Type) : Type :=
| Return (a : A)
| Throw (e : exn).

Arguments Return {A} a.
Arguments Throw {A} e.

Definition bind {A B} (m : result A) (k : A -> result B) : result B :=
  match m with
  | Return a => k a
  | Throw e => Throw e
  end.

(** Reading a property of [o]: a [TypeError] when [o] is undefined. *)
Definition deref {A} (o : option A) : result A :=
  match o with
  | Some a => Return a
  | None => Throw TypeError
  end.

End JS.

Import JS.

Notation "x <- m ;; k" := (bind m (fun x => k))
(at level 61, m at next level, right associativity).

(* ------------------------------------------------------------------ *)
(** ** The raw payload *)

Module Raw.

(** One agent's view of one treatment.  The four agents fill different
    properties of such an object; every property may be absent. *)
Record agent_data : Type := {
  invasiveness_score : option Q;
  recovery_time_days : option Q;
  medication_burden_score : option Q;
  lifestyle_impact : option string;
  disease_stability : option string;
  complication_probability : option Q;
  readmission_risk : option string;
  severity_score : option Q;
  safety_status : option string;
  identified_contraindications : option (list string);
  recommendation : option string;
  insights : option string
}.

(** The empty object [{}]. *)
Definition empty : agent_data := {|
  invasiveness_score := None;
  recovery_time_days := None;
  medication_burden_score := None;
  lifestyle_impact := None;
  disease_stability := None;
  complication_probability := None;
  readmission_risk := None;
  severity_score := None;
  safety_status := None;
  identified_contraindications := None;
  recommendation := None;
  insights := None
|}.

(** One side of the comparison summary. *)
Record comparison_side : Type := {
  overall_safety_score : option Q;
  effectiveness_score : option Q;
  patient_burden_score : option Q;
  cost_benefit_ratio : option string;
  summary : option string
}.

(** An object with a [treatment_a] and a [treatment_b] property. *)
Record sides (T : Type) : Type := {
  treatment_a : option T;
  treatment_b : option T
}.

Record agents_t : Type := {
  surgical_agent : option (sides agent_data);
  chronic_care_agent : option (sides agent_data);
  risk_agent : option (sides agent_data);
  safety_agent : option (sides agent_data)
}.

Record payload : Type := {
  agents : option agents_t;
  comparison : option (sides comparison_side);
  final_notes : option string
}.

(** [agent?.treatment_a], [agent?.treatment_b]. *)
Definition side_a (a : option (sides agent_data)) : option agent_data :=
  match a with
  | Some s => treatment_a s
  | None => None
  end.

Definition side_b (a : option (sides agent_data)) : option agent_data :=
  match a with
  | Some s => treatment_b s
  | None => None
  end.

(** [o || {}]. *)
Definition or_empty (o : option agent_data) : agent_data :=
  match o with
  | Some d => d
  | None => empty
  end.

(** [o?.insights]. *)
Definition insights_of (o : option agent_data) : option string :=
  match o with
  | Some d => insights d
  | None => None
  end.

End Raw.

(* ------------------------------------------------------------------ *)
(** ** The comparison model handed to the presentation layer *)

Module Model.

Record outcome : Type := {
  quality_of_life : number;
  readmission_risk : property string;
  confidence : Z;
  uncertainty : string
}.

Record timeline_point : Type := {
  month : Z;
  score : number;
  risk : Z;
  event : option string
}.

Record pair (T : Type) : Type := {
  treatmentA : T;
  treatmentB : T
}.

Record risks_t : Type := {
  readmission : pair (property Z);
  complications : pair (property Z);
  deterioration : pair number
}.

Record risk_increase : Type := {
  category : string;
  change : number
}.

Record delay_impact_t : Type := {
  risk_increases : list risk_increase;
  qol_immediate : number;
  qol_1month : number;
  qol_3months : number
}.

Record agent_insights : Type := {
  surgical : string;
  chronic_care : string;
  risk_insight : string  (* the property [risk] of [explanation.agents] *)
}.

Record explanation_t : Type := {
  reasoning : list string;
  agents : agent_insights
}.

Record t : Type := {
  treatment_a : string;
  treatment_b : string;
  outcome_a : outcome;
  outcome_b : outcome;
  timeline_a : list timeline_point;
  timeline_b : list timeline_point;
  risks : risks_t;
  delay_impact : delay_impact_t;
  explanation : explanation_t
}.

End Model.

(* ------------------------------------------------------------------ *)
(** ** utils/apiTransform *)

Module ApiTransform.

Local Open Scope string_scope.
Local Open Scope Q_scope.

(** [x === s] on a possibly absent string property. *)
Definition is_str (x : option string) (s : string) : bool :=
  match x with
  | Some v => (v =? s)%string
  | None => false
  end.

(** Combine insights from both treatments. *)
Definition combineInsights (insightA insightB : option string)
    (fallback : string) : string :=
  if truthy insightA && truthy insightB then
    ("Treatment A: " ++ show insightA ++
     String LF (String LF "Treatment B: ") ++ show insightB)%string
  else
    or_str insightA (or_str insightB (fallback ++ " pending")%string).

Definition lifestyleImpact : list (string * Q) :=
  [("minimal", 8); ("moderate", 0); ("significant", -8); ("severe", -15)].

Definition stabilityBonus : list (string * Q) :=
  [("excellent", 10); ("good", 5); ("fair", 0); ("poor", -10)].

(** The running value of [qol] before it is rounded and clamped. *)
Definition qol_raw (surgical chronic : Raw.agent_data)
    (comparison : Raw.comparison_side) : number :=
  let qol := or_num (Raw.effectiveness_score comparison) 7.5 * 10 in
  let invasiveness := or_num (Raw.invasiveness_score surgical) 5 in
  let qol := qol - invasiveness * 1.2 in
  let medicationBurden := or_num (Raw.medication_burden_score chronic) 5 in
  let qol := qol - medicationBurden * 1.0 in
  let lifestyleAdjustment :=
    or_property is_zero
      (lookup (show (Raw.lifestyle_impact chronic)) lifestyleImpact) 0 in
  let qol := num_add (Fin qol) (entry_number lifestyleAdjustment) in
  let stabilityAdjustment :=
    or_property is_zero
      (lookup (show (Raw.disease_stability chronic)) stabilityBonus) 0 in
  let qol := num_add qol (entry_number stabilityAdjustment) in
  let recoveryDays := or_num (Raw.recovery_time_days surgical) 30 in
  if Qlt_bool 60 recoveryDays then num_sub qol (Fin 8)
  else if Qlt_bool 30 recoveryDays then num_sub qol (Fin 4)
  else qol.

(** Calculate quality of life from agent data. *)
Definition calculateQualityOfLife (surgical chronic : Raw.agent_data)
    (comparison : Raw.comparison_side) : number :=
  num_max (Int 40)
    (num_min (Int 100) (num_round (qol_raw surgical chronic comparison))).

Definition readmissionMapping : list (string * string) :=
  [("low", "Low"); ("moderate", "Medium"); ("high", "High");
   ("very-high", "High")]%string.

(** Map readmission risk to UI format; [None] is [null]. *)
Definition mapReadmissionRisk (riskLevel : option string)
    : option (property string) :=
  match riskLevel with
  | Some s =>
      if (s =? "")%string then None
      else Some (or_property is_empty
                   (lookup (toLowerCase s) readmissionMapping) s)
  | None => None
  end.

(** [label || fallback] on the result of [mapReadmissionRisk]. *)
Definition or_label (label : option (property string)) (fallback : string)
    : property string :=
  match label with
  | Some (Own s) => if is_empty s then Own fallback else Own s
  | Some (Inherited k) => Inherited k
  | None => Own fallback
  end.

(** The caller's fallback on [overall_safety_score]. *)
Definition safetyThreshold (comparison : Raw.comparison_side) : string :=
  if ge_opt (Raw.overall_safety_score comparison) 7 then "Low"
  else if ge_opt (Raw.overall_safety_score comparison) 4 then "Medium"
  else "High".

(** The adjustment made for the wording of [safety.recommendation]. *)
Definition recommendationAdjustment (safety : Raw.agent_data) : Q :=
  let r := Raw.recommendation safety in
  if truthy r && includes (toLowerCase (show r)) "recommend" then 10
  else if truthy r && includes (toLowerCase (show r)) "not recommend" then -10
  else 0.

(** The running value of [confidence] before it is rounded and clamped. *)
Definition confidence_raw (safety risk : Raw.agent_data)
    (comparison : Raw.comparison_side) : Q :=
  let confidence := 50 in
  let safetyScore := or_num (Raw.severity_score safety) 5 in
  let confidence := confidence + (10 - safetyScore) * 5 in
  let overallSafety := or_num (Raw.overall_safety_score comparison) 5 in
  let confidence := confidence + (overallSafety - 5) * 4 in
  let complicationProb := or_num (Raw.complication_probability risk) 0.15 in
  let confidence := confidence - complicationProb * 100 in
  confidence + recommendationAdjustment safety.

(** Calculate confidence score based on multiple factors. *)
Definition calculateConfidence (safety risk : Raw.agent_data)
    (comparison : Raw.comparison_side) : Z :=
  Z.max 0 (Z.min 100 (Math_round (confidence_raw safety risk comparison))).

(** Calculate uncertainty level based on risk and safety assessment. *)
Definition calculateUncertainty (risk safety : Raw.agent_data) : string :=
  let uncertaintyScore :=
    if is_str (Raw.safety_status safety) "safe" then 1%Z
    else if is_str (Raw.safety_status safety) "caution" then 2%Z
    else 3%Z in
  let complicationProb := or_num (Raw.complication_probability risk) 0.15 in
  let uncertaintyScore :=
    if Qlt_bool 0.25 complicationProb then (uncertaintyScore + 1)%Z
    else if Qlt_bool complicationProb 0.10 then (uncertaintyScore - 1)%Z
    else uncertaintyScore in
  let readmissionRisk := toLowerCase (or_str (Raw.readmission_risk risk) "") in
  let uncertaintyScore :=
    if (readmissionRisk =? "high")%string || (readmissionRisk =? "very-high")%string
    then (uncertaintyScore + 1)%Z
    else if (readmissionRisk =? "low")%string then (uncertaintyScore - 1)%Z
    else uncertaintyScore in
  let uncertaintyScore := Z.max 1 (Z.min 3 uncertaintyScore) in
  if (uncertaintyScore =? 1)%Z then "Low"
  else if (uncertaintyScore =? 2)%Z then "Medium"
  else "High".

(** Simulation horizon in months. *)
Definition months : Z := 18.

Definition stabilityFactors : list (string * Q) :=
  [("excellent", 1.5); ("good", 1.0); ("fair", 0.5); ("poor", 0.0)].

Definition eventMarkers : list (Z * string) :=
  [(3, "Initial assessment"); (6, "Recovery checkpoint");
   (12, "Mid-term evaluation"); (18, "Long-term outcome")]%Z.

Fixpoint lookupZ (k : Z) (tbl : list (Z * string)) : option string :=
  match tbl with
  | [] => None
  | (k', v) :: tbl' => if (k =? k')%Z then Some v else lookupZ k tbl'
  end.

(** [x || null]. *)
Definition or_null (x : option string) : option string :=
  if truthy x then x else None.

(** The point pushed by one iteration of the loop, at month [i]. *)
Definition timelinePoint (surgical chronic risk : Raw.agent_data)
    (comparison : Raw.comparison_side) (i : Z) : Model.timeline_point :=
  let recoveryDays := or_num (Raw.recovery_time_days surgical) 30 in
  let invasiveness := or_num (Raw.invasiveness_score surgical) 5 in
  let diseaseStability := or_str (Raw.disease_stability chronic) "fair" in
  let complicationProb :=
    or_num (Raw.complication_probability risk) 0.25 * 100 in
  let initialQol :=
    num_mul (to_number (Raw.effectiveness_score comparison)) (Fin 10) in
  let stabilityFactor :=
    or_property is_zero (lookup diseaseStability stabilityFactors) 0.5 in
  let recoveryMonths := Math_ceil (recoveryDays / 30) in
  let score :=
    if (i <? recoveryMonths)%Z then
      num_mul initialQol
        (Fin (0.6 + (inject_Z i / inject_Z recoveryMonths) * 0.4))
    else
      let monthsPastRecovery := (i - recoveryMonths)%Z in
      num_add initialQol
        (num_mul (entry_number stabilityFactor)
           (Fin (inject_Z monthsPastRecovery))) in
  let baseRisk := complicationProb in
  let timeRisk := inject_Z i * (invasiveness * 0.5) in
  let risk_value := Qmin 90 (baseRisk + timeRisk) in
  {| Model.month := i;
     Model.score := num_max (Int 40) (num_min (Int 100) (num_round score));
     Model.risk := Z.max 10 (Math_round risk_value);
     Model.event := or_null (lookupZ i eventMarkers) |}.

(** [for (let i = start; i <= months; i += 3) timeline.push(point i)].
    [fuel] bounds the number of iterations. *)
Fixpoint timelineLoop (fuel : nat) (i : Z) (point : Z -> Model.timeline_point)
    : list Model.timeline_point :=
  match fuel with
  | O => []
  | S fuel' =>
      if (i <=? months)%Z then point i :: timelineLoop fuel' (i + 3)%Z point
      else []
  end.

(** Generate timeline data from agent outputs. *)
Definition generateTimelineData (surgical chronic risk : Raw.agent_data)
    (comparison : Raw.comparison_side) : list Model.timeline_point :=
  timelineLoop (Z.to_nat (months + 1)) 0
    (timelinePoint surgical chronic risk comparison).

Definition readmissionMap : list (string * Z) :=
  [("low", 25); ("moderate", 50); ("high", 75); ("very-high", 90)]%Z.

(** Calculate risk score from agent data. *)
Definition calculateRiskScore (agentData : option Raw.agent_data)
    (riskType : string) : property Z :=
  match agentData with
  | None => Own 50%Z
  | Some d =>
      if (riskType =? "readmission")%string then
        or_property (Z.eqb 0)
          (lookup (show (option_map toLowerCase (Raw.readmission_risk d)))
             readmissionMap) 50%Z
      else if (riskType =? "complications")%string then
        Own (Math_round (or_num (Raw.complication_probability d) 0.5 * 100))
      else Own 50%Z
  end.

(** The bullet character U+2022 in UTF-8. *)
Definition bullet : string :=
  String (ascii_of_nat 226) (String (ascii_of_nat 128)
    (String (ascii_of_nat 162) EmptyString)).

(** [line.replace(/^[-•*]\s*/, '')]. *)
Definition stripBullet (line : string) : string :=
  match line with
  | EmptyString => EmptyString
  | String c rest =>
      if Ascii.eqb c "-" || Ascii.eqb c "*" then trimStart rest
      else if prefix bullet line
      then trimStart (substring 3 (String.length line - 3) line)
      else line
  end.

(** The predicate of the first [filter] over the lines of the notes. *)
Definition keepLine (line : string) : bool :=
  negb (trim line =? "")%string &&
  negb (includes line "====") &&
  negb (includes line "CLINICAL") &&
  negb (includes line "WARNING") &&
  (20 <? String.length line)%nat.

(** Extract reasoning points from final notes. *)
Definition extractReasoningPoints (finalNotes : option string) : list string :=
  if negb (truthy finalNotes) then []
  else
    let lines := filter keepLine (split_lines (show finalNotes)) in
    filter (fun line => (0 <? String.length line)%nat)
      (map (fun line => trim (stripBullet line)) (slice0 3 lines)).

(** The optional safety-warning entry of the reasoning list. *)
Definition safetyWarning (label : string) (safety : Raw.agent_data)
    : list string :=
  match Raw.identified_contraindications safety with
  | Some l =>
      if (0 <? List.length l)%nat
      then [(label ++ " Safety: " ++ join "; " (slice0 2 l))%string]
      else []
  | None => []
  end.

(** The summary line built from one side of the comparison. *)
Definition summaryLine (label : string) (c : Raw.comparison_side) : string :=
  (label ++ " (" ++ show (Raw.cost_benefit_ratio c) ++ " cost-benefit): " ++
   show (Raw.summary c))%string.

(** [Math.round(side.patient_burden_score * 10)]. *)
Definition deteriorationScore (c : Raw.comparison_side) : number :=
  num_round (num_mul (to_number (Raw.patient_burden_score c)) (Fin 10)).

(** Outcome metrics of one treatment. *)
Definition outcomeOf (surgical chronic risk safety : Raw.agent_data)
    (c : Raw.comparison_side) : Model.outcome :=
  {| Model.quality_of_life := calculateQualityOfLife surgical chronic c;
     Model.readmission_risk :=
       or_label (mapReadmissionRisk (Raw.readmission_risk risk))
         (safetyThreshold c);
     Model.confidence := calculateConfidence safety risk c;
     Model.uncertainty := calculateUncertainty risk safety |}.

(** Transform backend API response to frontend-compatible format. *)
Definition transformBackendResponse (backendData : option Raw.payload)
    : result Model.t :=
  match backendData with
  | None => Throw (Error "Invalid backend response structure")
  | Some data =>
    match Raw.agents data, Raw.comparison data with
    | Some agents, Some comparison =>
      let final_notes := Raw.final_notes data in
      let agentInsights :=
        {| Model.surgical :=
             combineInsights
               (Raw.insights_of (Raw.side_a (Raw.surgical_agent agents)))
               (Raw.insights_of (Raw.side_b (Raw.surgical_agent agents)))
               "Surgical analysis";
           Model.chronic_care :=
             combineInsights
               (Raw.insights_of (Raw.side_a (Raw.chronic_care_agent agents)))
               (Raw.insights_of (Raw.side_b (Raw.chronic_care_agent agents)))
               "Chronic care analysis";
           Model.risk_insight :=
             combineInsights
               (Raw.insights_of (Raw.side_a (Raw.risk_agent agents)))
               (Raw.insights_of (Raw.side_b (Raw.risk_agent agents)))
               "Risk assessment" |} in
      let surgicalA := Raw.or_empty (Raw.side_a (Raw.surgical_agent agents)) in
      let chronicA := Raw.or_empty (Raw.side_a (Raw.chronic_care_agent agents)) in
      let riskA := Raw.or_empty (Raw.side_a (Raw.risk_agent agents)) in
      let safetyA := Raw.or_empty (Raw.side_a (Raw.safety_agent agents)) in
      comparisonA <- deref (Raw.treatment_a comparison) ;;
      let outcome_a := outcomeOf surgicalA chronicA riskA safetyA comparisonA in
      let surgicalB := Raw.or_empty (Raw.side_b (Raw.surgical_agent agents)) in
      let chronicB := Raw.or_empty (Raw.side_b (Raw.chronic_care_agent agents)) in
      let riskB := Raw.or_empty (Raw.side_b (Raw.risk_agent agents)) in
      let safetyB := Raw.or_empty (Raw.side_b (Raw.safety_agent agents)) in
      comparisonB <- deref (Raw.treatment_b comparison) ;;
      let outcome_b := outcomeOf surgicalB chronicB riskB safetyB comparisonB in
      let timeline_a :=
        generateTimelineData surgicalA chronicA riskA comparisonA in
      let timeline_b :=
        generateTimelineData surgicalB chronicB riskB comparisonB in
      let risks :=
        {| Model.readmission :=
             {| Model.treatmentA := calculateRiskScore (Some riskA) "readmission";
                Model.treatmentB := calculateRiskScore (Some riskB) "readmission" |};
           Model.complications :=
             {| Model.treatmentA := calculateRiskScore (Some riskA) "complications";
                Model.treatmentB := calculateRiskScore (Some riskB) "complications" |};
           Model.deterioration :=
             {| Model.treatmentA := deteriorationScore comparisonA;
                Model.treatmentB := deteriorationScore comparisonB |} |} in
      let delay_impact :=
        {| Model.risk_increases :=
             [ {| Model.category := "Readmission";
                  Model.change :=
                    num_abs
                      (num_sub
                         (score_number (Model.treatmentA (Model.readmission risks)))
                         (score_number (Model.treatmentB (Model.readmission risks)))) |};
               {| Model.category := "Complications";
                  Model.change :=
                    num_abs
                      (num_sub
                         (score_number (Model.treatmentA (Model.complications risks)))
                         (score_number (Model.treatmentB (Model.complications risks)))) |};
               {| Model.category := "Deterioration";
                  Model.change :=
                    num_abs
                      (num_sub (Model.treatmentA (Model.deterioration risks))
                         (Model.treatmentB (Model.deterioration risks))) |} ];
           Model.qol_immediate := Model.quality_of_life outcome_a;
           Model.qol_1month :=
             num_max (Int 50) (num_sub (Model.quality_of_life outcome_a) (Int 10));
           Model.qol_3months :=
             num_max (Int 40) (num_sub (Model.quality_of_life outcome_a) (Int 20)) |} in
      let reasoning :=
        slice0 5
          (filter (fun r => (0 <? String.length r)%nat)
             ([ summaryLine "Treatment A" comparisonA;
                summaryLine "Treatment B" comparisonB ] ++
              safetyWarning "Treatment A" safetyA ++
              safetyWarning "Treatment B" safetyB ++
              extractReasoningPoints final_notes)%list) in
      Return
        {| Model.treatment_a := "Treatment A";
           Model.treatment_b := "Treatment B";
           Model.outcome_a := outcome_a;
           Model.outcome_b := outcome_b;
           Model.timeline_a := timeline_a;
           Model.timeline_b := timeline_b;
           Model.risks := risks;
           Model.delay_impact := delay_impact;
           Model.explanation :=
             {| Model.reasoning := reasoning;
                Model.agents := agentInsights |} |}
    | _, _ => Throw (Error "Invalid backend response structure")
    end
  end.

End ApiTransform.

Import ApiTransform.

(* ------------------------------------------------------------------ *)
(** ** The specification's wording of the scorers, and its bounds *)

Module Spec.

Local Open Scope string_scope.
Local Open Scope Q_scope.

(** [x ?? d]: the default applies to an absent value only. *)
Definition nullish {A} (x : option A) (d : A) : A :=
  match x with
  | Some v => v
  | None => d
  end.

Definition clamp (lo hi z : Z) : Z := Z.max lo (Z.min hi z).

(** Section 4.3, step 4: the lifestyle-impact table, else 0. *)
Definition lifestyleAdjustment (l : option string) : Q :=
  match l with
  | Some s =>
      if (s =? "minimal")%string then 8
      else if (s =? "moderate")%string then 0
      else if (s =? "significant")%string then -8
      else if (s =? "severe")%string then -15
      else 0
  | None => 0
  end.

(** Section 4.3, step 5: the disease-stability table, else 0. *)
Definition stabilityAdjustment (l : option string) : Q :=
  match l with
  | Some s =>
      if (s =? "excellent")%string then 10
      else if (s =? "good")%string then 5
      else if (s =? "fair")%string then 0
      else if (s =? "poor")%string then -10
      else 0
  | None => 0
  end.

(** Section 4.3, step 6: the recovery-time penalty. *)
Definition recoveryPenalty (days : Q) : Q :=
  if Qlt_bool 60 days then 8 else if Qlt_bool 30 days then 4 else 0.

(** The seven steps of section 4.3 on the six fields they read, every
    default applying to an absent field only. *)
Definition qualityOfLifeOf (effectiveness invasiveness burden : option Q)
    (lifestyle stability : option string) (days : option Q) : Z :=
  let base := nullish effectiveness 7.5 * 10 in
  let total :=
    base
    - nullish invasiveness 5 * 1.2
    - nullish burden 5 * 1.0
    + lifestyleAdjustment lifestyle
    + stabilityAdjustment stability
    - recoveryPenalty (nullish days 30) in
  clamp 40 100 (Math_round total).

(** The quality-of-life scorer as section 4.3 of the specification words
    it. *)
Definition qualityOfLife (surgical chronic : Raw.agent_data)
    (comparison : Raw.comparison_side) : Z :=
  qualityOfLifeOf
    (Raw.effectiveness_score comparison)
    (Raw.invasiveness_score surgical)
    (Raw.medication_burden_score chronic)
    (Raw.lifestyle_impact chronic)
    (Raw.disease_stability chronic)
    (Raw.recovery_time_days surgical).

(** A score of 0 read as an absent score. *)
Definition zero_as_absent (x : option Q) : option Q :=
  match x with
  | Some q => if Qeq_bool q 0 then None else Some q
  | None => None
  end.

(** The value of an enumerated field is not the name of a member every
    object inherits. *)
Definition plain_key (x : option string) : Prop :=
  inherited (show x) = false.

(** The same for a level, which the tables read in lower case. *)
Definition plain_level (x : option string) : Prop :=
  inherited (show (option_map toLowerCase x)) = false.

(** The two enumerated fields of a chronic-care object are plain. *)
Definition plain_chronic (chronic : Raw.agent_data) : Prop :=
  plain_key (Raw.lifestyle_impact chronic) /\
  plain_key (Raw.disease_stability chronic).

(** Section 4.4: the case-insensitive table, unrecognised input passed
    through unchanged. *)
Definition directMapping (s : string) : string :=
  let l := toLowerCase s in
  if (l =? "low")%string then "Low"
  else if (l =? "moderate")%string then "Medium"
  else if (l =? "high")%string then "High"
  else if (l =? "very-high")%string then "High"
  else s.

(** Section 4.4 with the fallback of 4.1: the direct mapping whenever the
    agent's field is present, the threshold only when it is absent. *)
Definition readmissionRisk (level : option string)
    (comparison : Raw.comparison_side) : string :=
  match level with
  | Some s => directMapping s
  | None => safetyThreshold comparison
  end.

(** Section 4.8: the readmission table on the lowercased level, default 50. *)
Definition readmissionScore (level : option string) : Z :=
  match level with
  | Some s =>
      let l := toLowerCase s in
      if (l =? "low")%string then 25
      else if (l =? "moderate")%string then 50
      else if (l =? "high")%string then 75
      else if (l =? "very-high")%string then 90
      else 50
  | None => 50
  end%Z.

(** Section 4.7: the sampled months and their event markers. *)
Definition timelineMonths : list Z := [0; 3; 6; 9; 12; 15; 18]%Z.

Definition timelineEvents : list (option string) :=
  [None; Some "Initial assessment"; Some "Recovery checkpoint"; None;
   Some "Mid-term evaluation"; None; Some "Long-term outcome"].

(** [n] is an integer between [lo] and [hi]. *)
Definition int_in (lo hi : Z) (n : number) : Prop :=
  exists z, n = Int z /\ (lo <= z <= hi)%Z.

(** The documented values of [readmission_risk] and [uncertainty]. *)
Definition is_level (s : string) : Prop :=
  s = "Low" \/ s = "Medium" \/ s = "High".

(** A label that is a string, and one of the documented values. *)
Definition label_is_level (p : property string) : Prop :=
  exists s, p = Own s /\ is_level s.

(** A risk value that is an integer between [lo] and [hi]. *)
Definition score_in (lo hi : Z) (p : property Z) : Prop :=
  exists z, p = Own z /\ (lo <= z <= hi)%Z.

Definition outcome_ok (o : Model.outcome) : Prop :=
  int_in 40 100 (Model.quality_of_life o) /\
  label_is_level (Model.readmission_risk o) /\
  (0 <= Model.confidence o <= 100)%Z /\
  is_level (Model.uncertainty o).

Definition point_ok (p : Model.timeline_point) : Prop :=
  int_in 40 100 (Model.score p) /\ (10 <= Model.risk p <= 90)%Z.

Definition timeline_ok (t : list Model.timeline_point) : Prop :=
  map Model.month t = timelineMonths /\ Forall point_ok t.

Definition risks_ok (r : Model.risks_t) : Prop :=
  score_in 0 100 (Model.treatmentA (Model.readmission r)) /\
  score_in 0 100 (Model.treatmentB (Model.readmission r)) /\
  score_in 0 100 (Model.treatmentA (Model.complications r)) /\
  score_in 0 100 (Model.treatmentB (Model.complications r)) /\
  int_in 0 100 (Model.treatmentA (Model.deterioration r)) /\
  int_in 0 100 (Model.treatmentB (Model.deterioration r)).

(** Section 3: every numeric field of the model inside its documented bound
    and every enumerated field one of its documented values. *)
Definition well_bounded (m : Model.t) : Prop :=
  outcome_ok (Model.outcome_a m) /\
  outcome_ok (Model.outcome_b m) /\
  timeline_ok (Model.timeline_a m) /\
  timeline_ok (Model.timeline_b m) /\
  risks_ok (Model.risks m).

(** The fallback of section 4.1 on [overall_safety_score]:
    at least 7 is Low, at least 4 is Medium, anything else is High. *)
Inductive threshold_of : option Q -> string -> Prop :=
| threshold_low (q : Q) : 7 <= q -> threshold_of (Some q) "Low"
| threshold_medium (q : Q) : 4 <= q -> q < 7 -> threshold_of (Some q) "Medium"
| threshold_high (q : Q) : q < 4 -> threshold_of (Some q) "High"
| threshold_absent : threshold_of None "High".

(** The precedence of the two readmission signals: the direct mapping of a
    present, non-empty, plain level; the threshold when the level is absent
    or empty. *)
Definition readmission_precedence (level : option string)
    (comparison : Raw.comparison_side) (out : property string) : Prop :=
  (forall s, level = Some s -> s <> "" -> plain_level level ->
     out = Own (directMapping s)) /\
  (level = None \/ level = Some "" ->
   exists label,
     out = Own label /\
     threshold_of (Raw.overall_safety_score comparison) label).

(** Ranges of the raw fields under which the bounds of the model hold. *)
Definition probability_ok (r : Raw.agent_data) : Prop :=
  forall p, Raw.complication_probability r = Some p -> 0 <= p <= 1.

Definition level_ok (r : Raw.agent_data) : Prop :=
  forall s, Raw.readmission_risk r = Some s ->
    s = "" \/ is_level (directMapping s).

Definition burden_ok (c : Raw.comparison_side) : Prop :=
  exists b, Raw.patient_burden_score c = Some b /\ 0 <= b <= 10.

Definition effectiveness_ok (c : Raw.comparison_side) : Prop :=
  exists e, Raw.effectiveness_score c = Some e.

(** Section 4.8 for one treatment.  The readmission value of a plain level
    is the table's, an integer in [0,100]. *)
Definition readmission_value (r : Raw.agent_data) (v : property Z) : Prop :=
  plain_level (Raw.readmission_risk r) ->
  v = Own (readmissionScore (Raw.readmission_risk r)) /\ score_in 0 100 v.

(** The complications value is the rounded percentage of the probability,
    0.5 when there is none; it is in [0,100] for a probability in range. *)
Definition complications_value (r : Raw.agent_data) (v : property Z) : Prop :=
  v = Own (Math_round (or_num (Raw.complication_probability r) 0.5 * 100)) /\
  (probability_ok r -> score_in 0 100 v).

(** The deterioration value of a present burden score is ten times the
    score, rounded; it is in [0,100] for a score between 0 and 10. *)
Definition deterioration_value (c : Raw.comparison_side) (v : number) : Prop :=
  forall b, Raw.patient_burden_score c = Some b ->
    v = Int (Math_round (b * 10)) /\ (0 <= b <= 10 -> int_in 0 100 v).

(** The payload has its four structural parts. *)
Definition structured (d : Raw.payload) (ag : Raw.agents_t)
    (ca cb : Raw.comparison_side) : Prop :=
  Raw.agents d = Some ag /\
  exists c, Raw.comparison d = Some c /\
    Raw.treatment_a c = Some ca /\ Raw.treatment_b c = Some cb.

(** The agent objects the transformation reads for each treatment. *)
Definition surgicalA (ag : Raw.agents_t) : Raw.agent_data :=
  Raw.or_empty (Raw.side_a (Raw.surgical_agent ag)).

Definition surgicalB (ag : Raw.agents_t) : Raw.agent_data :=
  Raw.or_empty (Raw.side_b (Raw.surgical_agent ag)).

Definition chronicA (ag : Raw.agents_t) : Raw.agent_data :=
  Raw.or_empty (Raw.side_a (Raw.chronic_care_agent ag)).

Definition chronicB (ag : Raw.agents_t) : Raw.agent_data :=
  Raw.or_empty (Raw.side_b (Raw.chronic_care_agent ag)).

Definition riskA (ag : Raw.agents_t) : Raw.agent_data :=
  Raw.or_empty (Raw.side_a (Raw.risk_agent ag)).

Definition riskB (ag : Raw.agents_t) : Raw.agent_data :=
  Raw.or_empty (Raw.side_b (Raw.risk_agent ag)).

Definition safetyA (ag : Raw.agents_t) : Raw.agent_data :=
  Raw.or_empty (Raw.side_a (Raw.safety_agent ag)).

Definition safetyB (ag : Raw.agents_t) : Raw.agent_data :=
  Raw.or_empty (Raw.side_b (Raw.safety_agent ag)).

(** Every raw field that reaches a bounded field of the model is in range. *)
Definition inputs_in_range (ag : Raw.agents_t)
    (ca cb : Raw.comparison_side) : Prop :=
  plain_chronic (chronicA ag) /\ plain_chronic (chronicB ag) /\
  probability_ok (riskA ag) /\ probability_ok (riskB ag) /\
  level_ok (riskA ag) /\ level_ok (riskB ag) /\
  burden_ok ca /\ burden_ok cb /\
  effectiveness_ok ca /\ effectiveness_ok cb.

(** The candidates of the reasoning list, before the filter and the cut. *)
Definition reasoningCandidates (ag : Raw.agents_t)
    (ca cb : Raw.comparison_side) (notes : option string) : list string :=
  ([ summaryLine "Treatment A" ca; summaryLine "Treatment B" cb ] ++
   safetyWarning "Treatment A" (safetyA ag) ++
   safetyWarning "Treatment B" (safetyB ag) ++
   extractReasoningPoints notes)%list.

Definition invalidPayload : exn := Error "Invalid backend response structure".

End Spec.

(* ------------------------------------------------------------------ *)
(** ** Concrete payloads *)

Module Examples.

Local Open Scope string_scope.
Local Open Scope Q_scope.

(** A comparison side with the given scores and no text. *)
Definition side (safety effectiveness burden : option Q)
    : Raw.comparison_side :=
  {| Raw.overall_safety_score := safety;
     Raw.effectiveness_score := effectiveness;
     Raw.patient_burden_score := burden;
     Raw.cost_benefit_ratio := None;
     Raw.summary := None |}.

(** The comparison side [{}]. *)
Definition bareSide : Raw.comparison_side := side None None None.

(** The comparison side of the backend's documented response. *)
Definition documentedSide : Raw.comparison_side :=
  {| Raw.overall_safety_score := Some 7.5;
     Raw.effectiveness_score := Some 8.2;
     Raw.patient_burden_score := Some 6.0;
     Raw.cost_benefit_ratio := Some "favorable";
     Raw.summary := Some "Lower procedural risk" |}.

(** A risk-agent object with the given probability and level. *)
Definition riskData (p : option Q) (level : option string) : Raw.agent_data :=
  {| Raw.invasiveness_score := None;
     Raw.recovery_time_days := None;
     Raw.medication_burden_score := None;
     Raw.lifestyle_impact := None;
     Raw.disease_stability := None;
     Raw.complication_probability := p;
     Raw.readmission_risk := level;
     Raw.severity_score := None;
     Raw.safety_status := None;
     Raw.identified_contraindications := None;
     Raw.recommendation := None;
     Raw.insights := None |}.

(** A safety-agent object with the given severity and recommendation. *)
Definition safetyData (severity : option Q) (text : option string)
    : Raw.agent_data :=
  {| Raw.invasiveness_score := None;
     Raw.recovery_time_days := None;
     Raw.medication_burden_score := None;
     Raw.lifestyle_impact := None;
     Raw.disease_stability := None;
     Raw.complication_probability := None;
     Raw.readmission_risk := None;
     Raw.severity_score := severity;
     Raw.safety_status := None;
     Raw.identified_contraindications := None;
     Raw.recommendation := text;
     Raw.insights := None |}.

(** The agents object [{}]. *)
Definition bareAgents : Raw.agents_t :=
  {| Raw.surgical_agent := None;
     Raw.chronic_care_agent := None;
     Raw.risk_agent := None;
     Raw.safety_agent := None |}.

(** Agents of which only the risk agent reports, for treatment A. *)
Definition agentsWithRiskA (r : Raw.agent_data) : Raw.agents_t :=
  {| Raw.surgical_agent := None;
     Raw.chronic_care_agent := None;
     Raw.risk_agent :=
       Some {| Raw.treatment_a := Some r; Raw.treatment_b := None |};
     Raw.safety_agent := None |}.

Definition payloadOf (ag : Raw.agents_t) (ca cb : Raw.comparison_side)
    : Raw.payload :=
  {| Raw.agents := Some ag;
     Raw.comparison :=
       Some {| Raw.treatment_a := Some ca; Raw.treatment_b := Some cb |};
     Raw.final_notes := None |}.

(** [{agents: {}, comparison: {treatment_a: {}, treatment_b: {}}}]. *)
Definition barePayload : Raw.payload := payloadOf bareAgents bareSide bareSide.

(** [{agents: {}, comparison: {}}]. *)
Definition noSidesPayload : Raw.payload :=
  {| Raw.agents := Some bareAgents;
     Raw.comparison := Some {| Raw.treatment_a := None; Raw.treatment_b := None |};
     Raw.final_notes := None |}.

(** The documented response, the agents reporting nothing. *)
Definition documentedPayload : Raw.payload :=
  payloadOf bareAgents documentedSide documentedSide.

(** Treatment A has an effectiveness of 4 and nothing else. *)
Definition lowEffectivenessPayload : Raw.payload :=
  payloadOf bareAgents (side None (Some 4) None) bareSide.

(** The risk agent reports a level outside its vocabulary for treatment A;
    the comparison sides are empty objects. *)
Definition criticalPayload : Raw.payload :=
  payloadOf (agentsWithRiskA (riskData None (Some "critical"))) bareSide bareSide.

(** The risk agent reports a probability of 15 for treatment A; the
    comparison sides are empty objects. *)
Definition percentPayload : Raw.payload :=
  payloadOf (agentsWithRiskA (riskData (Some 15) None)) bareSide bareSide.

(** The risk agent reports an empty level for treatment A, whose overall
    safety score is 8. *)
Definition emptyLevelPayload : Raw.payload :=
  payloadOf (agentsWithRiskA (riskData None (Some "")))
    (side (Some 8) None None) bareSide.

(** The risk agent reports ['moderate'] for treatment A, whose overall
    safety score is 7.5. *)
Definition moderatePayload : Raw.payload :=
  payloadOf (agentsWithRiskA (riskData (Some 0.2) (Some "moderate")))
    documentedSide documentedSide.

(** The inputs of the specification's confidence example. *)
Definition exampleSafety : Raw.agent_data :=
  safetyData (Some 3) (Some "We recommend proceeding").

Definition exampleRisk : Raw.agent_data := riskData (Some 0.1) None.

Definition exampleSide : Raw.comparison_side := side (Some 8) None None.

(** A safety agent advising against the treatment. *)
Definition adverseSafety : Raw.agent_data :=
  safetyData None (Some "Not recommended").

End Examples.

(* ------------------------------------------------------------------ *)
(** ** The presentation components that read the model *)

Module Components.

Local Open Scope string_scope.

(** [score >= b] where [score] may be [NaN]: false on [NaN]. *)
Definition num_ge (score : number) (b : Q) : bool :=
  match score with
  | Fin x => Qle_bool b x
  | NaN => false
  end.

(** components/RiskHeatmap *)
Module RiskHeatmap.

Record risk_level : Type := {
  level : string;
  color : string;
  borderColor : string
}.

Definition getRiskLevel (score : number) : risk_level :=
  if num_ge score 70 then
    {| level := "High"; color := "bg-red-500"; borderColor := "border-red-500" |}
  else if num_ge score 40 then
    {| level := "Moderate"; color := "bg-yellow-500";
       borderColor := "border-yellow-500" |}
  else
    {| level := "Low"; color := "bg-green-500";
       borderColor := "border-green-500" |}.

End RiskHeatmap.

(** components/HorizontalTimeline *)
Module HorizontalTimeline.

Definition getRiskColor (score : Z) : string :=
  if (score <? 40)%Z then "bg-green-500"
  else if (score <? 70)%Z then "bg-yellow-500"
  else "bg-red-500".

Definition getRiskBorder (score : Z) : string :=
  if (score <? 40)%Z then "border-green-500"
  else if (score <? 70)%Z then "border-yellow-500"
  else "border-red-500".

(** [step.risk || 30]. *)
Definition riskScore (step : Model.timeline_point) : Z :=
  or_int (Some (Model.risk step)) 30.

(** [step.score || step.treatmentA || step.treatmentB || 0], on a point of
    the model, which has no [treatmentA] and no [treatmentB]. *)
Definition displayedScore (step : Model.timeline_point) : number :=
  match Model.score step with
  | Fin q => if Qeq_bool q 0 then Int 0 else Fin q
  | NaN => Int 0
  end.

End HorizontalTimeline.

(** components/OutcomeCards *)
Module OutcomeCards.

(** The colour classes of a lowercased label. *)
Definition colourOf (riskLower : string) : string :=
  if riskLower =? "low" then
    "text-green-600 dark:text-green-400 border-green-500"
  else if (riskLower =? "medium") || (riskLower =? "moderate") then
    "text-yellow-600 dark:text-yellow-400 border-yellow-500"
  else if riskLower =? "high" then
    "text-red-600 dark:text-red-400 border-red-500"
  else "text-slate-600 dark:text-slate-400 border-slate-500".

(** [risk] is a label of the model: a string, or an inherited member, which
    has no [toLowerCase] to call. *)
Definition getRiskColor (risk : option (property string)) : result string :=
  match risk with
  | Some (Inherited _) => Throw TypeError
  | Some (Own s) => Return (colourOf (or_str (Some (toLowerCase s)) ""))
  | None => Return (colourOf "")
  end.

End OutcomeCards.

End Components.

(* ------------------------------------------------------------------ *)
(** ** Further inputs and predicates *)

Module More.

Local Open Scope string_scope.
Local Open Scope Q_scope.

(** The level is one of the four the tables know, in any letter case. *)
Definition recognised (s : string) : Prop :=
  toLowerCase s = "low" \/ toLowerCase s = "moderate" \/
  toLowerCase s = "high" \/ toLowerCase s = "very-high".

(** A chronic-care object with the given disease stability only. *)
Definition chronicData (stability : option string) : Raw.agent_data :=
  {| Raw.invasiveness_score := None;
     Raw.recovery_time_days := None;
     Raw.medication_burden_score := None;
     Raw.lifestyle_impact := None;
     Raw.disease_stability := stability;
     Raw.complication_probability := None;
     Raw.readmission_risk := None;
     Raw.severity_score := None;
     Raw.safety_status := None;
     Raw.identified_contraindications := None;
     Raw.recommendation := None;
     Raw.insights := None |}.

(** A safety-agent object with the given status and contraindications. *)
Definition safetyFlags (status : option string)
    (contraindications : option (list string)) : Raw.agent_data :=
  {| Raw.invasiveness_score := None;
     Raw.recovery_time_days := None;
     Raw.medication_burden_score := None;
     Raw.lifestyle_impact := None;
     Raw.disease_stability := None;
     Raw.complication_probability := None;
     Raw.readmission_risk := None;
     Raw.severity_score := None;
     Raw.safety_status := status;
     Raw.identified_contraindications := contraindications;
     Raw.recommendation := None;
     Raw.insights := None |}.

(** Agents of which only the safety agent reports, for both treatments. *)
Definition agentsWithSafety (a b : Raw.agent_data) : Raw.agents_t :=
  {| Raw.surgical_agent := None;
     Raw.chronic_care_agent := None;
     Raw.risk_agent := None;
     Raw.safety_agent :=
       Some {| Raw.treatment_a := Some a; Raw.treatment_b := Some b |} |}.

(** Final notes with a banner, a short line and two bulleted findings. *)
Definition sampleNotes : string :=
  ("CLINICAL DECISION SUPPORT SUMMARY" ++ String LF
   "=================================" ++ String LF
   "- Treatment A offers faster symptom relief  " ++ String LF
   "too short" ++ String LF
   "* Treatment B carries a lower procedural risk")%string.

(** Both safety agents flag contraindications, and there are final notes. *)
Definition flaggedPayload : Raw.payload :=
  {| Raw.agents :=
       Some (agentsWithSafety
               (safetyFlags (Some "caution")
                  (Some ["Renal impairment"; "Anticoagulation"; "Age"]))
               (safetyFlags (Some "safe") (Some ["Drug interaction"])));
     Raw.comparison :=
       Some {| Raw.treatment_a := Some Examples.documentedSide;
               Raw.treatment_b := Some Examples.documentedSide |};
     Raw.final_notes := Some sampleNotes |}.

(** A surgical object with the given invasiveness and recovery time. *)
Definition surgicalData (invasiveness days : option Q) : Raw.agent_data :=
  {| Raw.invasiveness_score := invasiveness;
     Raw.recovery_time_days := days;
     Raw.medication_burden_score := None;
     Raw.lifestyle_impact := None;
     Raw.disease_stability := None;
     Raw.complication_probability := None;
     Raw.readmission_risk := None;
     Raw.severity_score := None;
     Raw.safety_status := None;
     Raw.identified_contraindications := None;
     Raw.recommendation := None;
     Raw.insights := Some "Minimally invasive approach" |}.

(** A chronic-care object with its burden and its two enumerated fields. *)
Definition chronicFull (burden : option Q) (lifestyle stability : option string)
    : Raw.agent_data :=
  {| Raw.invasiveness_score := None;
     Raw.recovery_time_days := None;
     Raw.medication_burden_score := burden;
     Raw.lifestyle_impact := lifestyle;
     Raw.disease_stability := stability;
     Raw.complication_probability := None;
     Raw.readmission_risk := None;
     Raw.severity_score := None;
     Raw.safety_status := None;
     Raw.identified_contraindications := None;
     Raw.recommendation := None;
     Raw.insights := None |}.

(** All four agents report on both treatments. *)
Definition reportingAgents : Raw.agents_t :=
  {| Raw.surgical_agent :=
       Some {| Raw.treatment_a := Some (surgicalData (Some 7) (Some 45));
               Raw.treatment_b := Some (surgicalData (Some 2) (Some 10)) |};
     Raw.chronic_care_agent :=
       Some {| Raw.treatment_a :=
                 Some (chronicFull (Some 3) (Some "moderate") (Some "good"));
               Raw.treatment_b :=
                 Some (chronicFull (Some 6) (Some "significant")
                         (Some "poor")) |};
     Raw.risk_agent :=
       Some {| Raw.treatment_a :=
                 Some (Examples.riskData (Some 0.25) (Some "High"));
               Raw.treatment_b :=
                 Some (Examples.riskData (Some 0.125) (Some "low")) |};
     Raw.safety_agent :=
       Some {| Raw.treatment_a :=
                 Some (safetyFlags (Some "caution") (Some ["Renal impairment"]));
               Raw.treatment_b := Some (safetyFlags (Some "safe") None) |} |}.

(** A comparison side with the scores of the second treatment. *)
Definition secondSide : Raw.comparison_side :=
  {| Raw.overall_safety_score := Some 5;
     Raw.effectiveness_score := Some 6.5;
     Raw.patient_burden_score := Some 3;
     Raw.cost_benefit_ratio := Some "moderate";
     Raw.summary := Some "Slower but safer" |}.

(** The documented response with every agent reporting. *)
Definition reportingPayload : Raw.payload :=
  {| Raw.agents := Some reportingAgents;
     Raw.comparison :=
       Some {| Raw.treatment_a := Some Examples.documentedSide;
               Raw.treatment_b := Some secondSide |};
     Raw.final_notes := Some sampleNotes |}.

(** The risk agent reports the level ['Constructor'] for treatment A. *)
Definition constructorLevelPayload : Raw.payload :=
  Examples.payloadOf
    (Examples.agentsWithRiskA (Examples.riskData None (Some "Constructor")))
    Examples.documentedSide Examples.documentedSide.

(** A chronic-care object whose lifestyle impact names an inherited
    member. *)
Definition constructorChronic : Raw.agent_data :=
  chronicFull None (Some "constructor") None.

End More.

Import Spec.

(** Case analysis on the keys of a lookup table, closing each case. *)
Ltac table_cases s tac :=
  repeat (match goal with
          | |- context [(s =? ?k)%string] =>
              destruct (s =? k)%string; [tac|]
          end);
  tac.

(* ------------------------------------------------------------------ *)
(** ** Rounding and clamping *)

Section Rounding.

Local Open Scope Q_scope.

Lemma Math_round_mono (x y : Q) :
  x <= y -> (Math_round x <= Math_round y)%Z.
Proof.
  intros H. unfold Math_round. apply Qfloor_resp_le. lra.
Qed.

Lemma Math_round_Z (z : Z) : Math_round (inject_Z z) = z.
Proof.
  unfold Math_round.
  pose proof (Qfloor_le (inject_Z z + 0.5)) as Hlo.
  pose proof (Qlt_floor (inject_Z z + 0.5)) as Hhi.
  rewrite inject_Z_plus in Hhi. change (inject_Z 1) with 1 in Hhi.
  assert (H1 : inject_Z (Qfloor (inject_Z z + 0.5)) < inject_Z (z + 1)).
  { rewrite inject_Z_plus. change (inject_Z 1) with 1. lra. }
  assert (H2 : inject_Z z < inject_Z (Qfloor (inject_Z z + 0.5) + 1)).
  { rewrite inject_Z_plus. change (inject_Z 1) with 1. lra. }
  rewrite <- Zlt_Qlt in H1, H2. lia.
Qed.

Lemma Math_round_between (lo hi : Z) (q : Q) :
  inject_Z lo <= q <= inject_Z hi -> (lo <= Math_round q <= hi)%Z.
Proof.
  intros [Hlo Hhi].
  apply Math_round_mono in Hlo, Hhi.
  rewrite Math_round_Z in Hlo, Hhi. lia.
Qed.

Lemma Qle_bool_inject (a b : Z) :
  Qle_bool (inject_Z a) (inject_Z b) = (a <=? b)%Z.
Proof.
  unfold Qle_bool. simpl. now rewrite !Z.mul_1_r.
Qed.

Lemma num_min_Int (a b : Z) : num_min (Int a) (Int b) = Int (Z.min a b).
Proof.
  unfold num_min, Int. rewrite Qle_bool_inject.
  destruct (Z.leb_spec a b); f_equal; f_equal; lia.
Qed.

Lemma num_max_Int (a b : Z) : num_max (Int a) (Int b) = Int (Z.max a b).
Proof.
  unfold num_max, Int. rewrite Qle_bool_inject.
  destruct (Z.leb_spec a b); f_equal; f_equal; lia.
Qed.

Lemma clamped_round_int_in (lo hi : Z) (q : Q) :
  (lo <= hi)%Z ->
  int_in lo hi (num_max (Int lo) (num_min (Int hi) (num_round (Fin q)))).
Proof.
  intros H. simpl num_round. rewrite num_min_Int, num_max_Int.
  eexists; split; [reflexivity | lia].
Qed.

Lemma Qlt_bool_iff (a b : Q) : Qlt_bool a b = true <-> a < b.
Proof.
  unfold Qlt_bool. rewrite negb_true_iff.
  split; intros H.
  - apply Qnot_le_lt. intros Hle. apply Qle_bool_iff in Hle. congruence.
  - destruct (Qle_bool b a) eqn:E; [|reflexivity].
    apply Qle_bool_iff in E. lra.
Qed.

Lemma or_num_zero_as_absent (x : option Q) (d : Q) :
  or_num x d = nullish (zero_as_absent x) d.
Proof.
  destruct x as [q|]; cbn [or_num zero_as_absent nullish]; [|reflexivity].
  now destruct (Qeq_bool q 0).
Qed.

End Rounding.

(* ------------------------------------------------------------------ *)
(** ** Table lookups *)

Section Lookups.

Local Open Scope string_scope.

(** A key that names no inherited member finds own properties only. *)
Lemma lookup_plain {V} (k : string) (tbl : list (string * V)) :
  inherited k = false -> lookup k tbl = option_map Own (own k tbl).
Proof.
  intros H. unfold lookup. destruct (own k tbl); [reflexivity|].
  now rewrite H.
Qed.

(** A key that names an inherited member and no own property finds the
    member. *)
Lemma lookup_inherited {V} (k : string) (tbl : list (string * V)) :
  inherited k = true -> own k tbl = None ->
  lookup k tbl = Some (Inherited k).
Proof.
  intros H Ho. unfold lookup. now rewrite Ho, H.
Qed.

(** No key of the tables of the transformation is an inherited name. *)
Lemma inherited_own_none (k : string) :
  inherited k = true ->
  own k lifestyleImpact = None /\ own k stabilityBonus = None /\
  own k stabilityFactors = None /\ own k readmissionMapping = None /\
  own k readmissionMap = None.
Proof.
  unfold inherited, prototypeKeys. cbn [existsb]. intros H.
  repeat (apply orb_true_iff in H; destruct H as [H | H];
          [apply String.eqb_eq in H; subst k; repeat split; reflexivity|]).
  discriminate H.
Qed.

Lemma plain_key_or_str (x : option string) (d : string) :
  plain_key x -> inherited d = false -> inherited (or_str x d) = false.
Proof.
  unfold plain_key. destruct x as [s|]; cbn [show or_str]; [|auto].
  destruct (s =? ""); auto.
Qed.

End Lookups.

(* ------------------------------------------------------------------ *)
(** ** The shape of the transformation *)

Section Structure.

(** On a payload with its four structural parts the transformation returns,
    and every field of the model is the helper applied to the agent objects
    of that treatment. *)
Lemma transform_structured (d : Raw.payload) (ag : Raw.agents_t)
  (ca cb : Raw.comparison_side) :
  structured d ag ca cb ->
  exists m,
    transformBackendResponse (Some d) = Return m /\
    Model.outcome_a m =
      outcomeOf (surgicalA ag) (chronicA ag) (riskA ag) (safetyA ag) ca /\
    Model.outcome_b m =
      outcomeOf (surgicalB ag) (chronicB ag) (riskB ag) (safetyB ag) cb /\
    Model.timeline_a m =
      generateTimelineData (surgicalA ag) (chronicA ag) (riskA ag) ca /\
    Model.timeline_b m =
      generateTimelineData (surgicalB ag) (chronicB ag) (riskB ag) cb /\
    Model.readmission (Model.risks m) =
      {| Model.treatmentA := calculateRiskScore (Some (riskA ag)) "readmission";
         Model.treatmentB := calculateRiskScore (Some (riskB ag)) "readmission" |} /\
    Model.complications (Model.risks m) =
      {| Model.treatmentA := calculateRiskScore (Some (riskA ag)) "complications";
         Model.treatmentB := calculateRiskScore (Some (riskB ag)) "complications" |} /\
    Model.deterioration (Model.risks m) =
      {| Model.treatmentA := deteriorationScore ca;
         Model.treatmentB := deteriorationScore cb |} /\
    Model.qol_immediate (Model.delay_impact m) =
      Model.quality_of_life (Model.outcome_a m) /\
    Model.qol_1month (Model.delay_impact m) =
      num_max (Int 50) (num_sub (Model.quality_of_life (Model.outcome_a m)) (Int 10)) /\
    Model.qol_3months (Model.delay_impact m) =
      num_max (Int 40) (num_sub (Model.quality_of_life (Model.outcome_a m)) (Int 20)) /\
    Model.reasoning (Model.explanation m) =
      slice0 5
        (filter (fun r => (0 <? String.length r)%nat)
           (reasoningCandidates ag ca cb (Raw.final_notes d))).
Proof.
  intros (Hag & c & Hc & Ha & Hb).
  unfold transformBackendResponse. rewrite Hag, Hc. cbn zeta.
  rewrite Ha, Hb. cbn [deref bind].
  eexists. split; [reflexivity|].
  cbn [Model.outcome_a Model.outcome_b Model.timeline_a Model.timeline_b
       Model.risks Model.delay_impact Model.explanation Model.reasoning
       Model.readmission Model.complications Model.deterioration
       Model.qol_immediate Model.qol_1month Model.qol_3months].
  repeat split.
Qed.

(** A model is returned only for a payload with its four structural parts. *)
Lemma transform_Return_inv (p : option Raw.payload) (m : Model.t) :
  transformBackendResponse p = Return m ->
  exists d ag ca cb, p = Some d /\ structured d ag ca cb.
Proof.
  unfold transformBackendResponse, structured.
  destruct p as [d|]; [|discriminate].
  destruct (Raw.agents d) as [ag|] eqn:Hag; [|discriminate].
  destruct (Raw.comparison d) as [c|] eqn:Hc; [|discriminate].
  cbn zeta.
  destruct (Raw.treatment_a c) as [ca|] eqn:Ha; [|discriminate].
  destruct (Raw.treatment_b c) as [cb|] eqn:Hb; [|discriminate].
  intros _. exists d, ag, ca, cb. eauto 10.
Qed.

End Structure.

(* ------------------------------------------------------------------ *)
(** ** Structural failure *)

Section FailFast.

(** C2, as the code has it.  [normalize(null)], a payload without [agents]
    and a payload without [comparison] each end with the one error of the
    structural check and return no model, and that error has no other
    cause; a payload that has [agents], [comparison] and both comparison
    sides ends with no error at all. *)
Theorem transform_fail_fast :
  transformBackendResponse None = Throw invalidPayload /\
  (forall d, Raw.agents d = None ->
     transformBackendResponse (Some d) = Throw invalidPayload) /\
  (forall d, Raw.comparison d = None ->
     transformBackendResponse (Some d) = Throw invalidPayload) /\
  (forall p, transformBackendResponse p = Throw invalidPayload ->
     p = None \/
     exists d, p = Some d /\ (Raw.agents d = None \/ Raw.comparison d = None)) /\
  (forall d ag ca cb, structured d ag ca cb ->
     exists m, transformBackendResponse (Some d) = Return m).
Proof.
  split; [reflexivity|]. split; [|split; [|split]].
  - intros d H. unfold transformBackendResponse. now rewrite H.
  - intros d H. unfold transformBackendResponse. rewrite H.
    now destruct (Raw.agents d).
  - intros [d|] H; [right | now left]. exists d. split; [reflexivity|].
    unfold transformBackendResponse in H.
    destruct (Raw.agents d) as [ag|]; [|now left].
    destruct (Raw.comparison d) as [c|]; [|now right].
    exfalso. cbn zeta in H.
    destruct (Raw.treatment_a c); [|discriminate H].
    destruct (Raw.treatment_b c); discriminate H.
  - intros d ag ca cb H.
    destruct (transform_structured H) as (m & Hm & _). now exists m.
Qed.

Lemma transform_fail_fast_witness :
  transformBackendResponse
    (Some {| Raw.agents := None;
             Raw.comparison := Raw.comparison Examples.documentedPayload;
             Raw.final_notes := None |}) = Throw invalidPayload /\
  transformBackendResponse
    (Some {| Raw.agents := Some Examples.bareAgents;
             Raw.comparison := None;
             Raw.final_notes := None |}) = Throw invalidPayload /\
  exists m, transformBackendResponse (Some Examples.documentedPayload) = Return m.
Proof.
  destruct transform_fail_fast as (_ & Hagents & Hcomparison & _ & Hok).
  split; [apply Hagents; reflexivity|].
  split; [apply Hcomparison; reflexivity|].
  apply (Hok _ Examples.bareAgents Examples.documentedSide
           Examples.documentedSide).
  split; [reflexivity|]. eexists. repeat split.
Defined.

(** C2 as stated fails: a payload whose [agents] and [comparison] are both
    non-null, [{agents: {}, comparison: {}}], ends with a [TypeError], an
    error other than the one of the structural check. *)
Lemma transform_other_error :
  transformBackendResponse (Some Examples.noSidesPayload) = Throw TypeError /\
  TypeError <> invalidPayload.
Proof.
  split; [reflexivity | discriminate].
Qed.

End FailFast.

(* ------------------------------------------------------------------ *)
(** ** Quality of life *)

Section QualityOfLife.

Local Open Scope Q_scope.

Lemma num_sub_Int (a b : Z) : num_sub (Int a) (Int b) = Int (a - b).
Proof.
  unfold Int, inject_Z. cbn [num_sub].
  unfold Qminus, Qplus, Qopp. cbn [Qnum Qden Pos.mul].
  do 2 f_equal. lia.
Qed.

Lemma num_le_Int (a b : Z) : num_le (Int a) (Int b) <-> (a <= b)%Z.
Proof.
  unfold num_le, Int. rewrite Zle_Qle. tauto.
Qed.

Lemma num_lt_Int (a b : Z) : num_lt (Int a) (Int b) <-> (a < b)%Z.
Proof.
  unfold num_lt, Int. rewrite Zlt_Qlt. tauto.
Qed.

Lemma lifestyle_lookup (l : option string) :
  plain_key l ->
  entry_number (or_property is_zero (lookup (show l) lifestyleImpact) 0) =
  Fin (lifestyleAdjustment l).
Proof.
  intros H. unfold plain_key in H. rewrite (@lookup_plain _ _ _ H).
  destruct l as [s|]; [|reflexivity].
  cbn [show own lifestyleImpact lifestyleAdjustment].
  table_cases s ltac:(reflexivity).
Qed.

Lemma stability_lookup (l : option string) :
  plain_key l ->
  entry_number (or_property is_zero (lookup (show l) stabilityBonus) 0) =
  Fin (stabilityAdjustment l).
Proof.
  intros H. unfold plain_key in H. rewrite (@lookup_plain _ _ _ H).
  destruct l as [s|]; [|reflexivity].
  cbn [show own stabilityBonus stabilityAdjustment].
  table_cases s ltac:(reflexivity).
Qed.

(** A recovery time of 0 days takes the default of 30 days, which carries
    no penalty either. *)
Lemma recovery_penalty_default (days : option Q) :
  recoveryPenalty (or_num days 30) = recoveryPenalty (nullish days 30).
Proof.
  destruct days as [q|]; [|reflexivity]. cbn [or_num nullish].
  destruct (Qeq_bool q 0) eqn:E; [|reflexivity].
  apply Qeq_bool_eq in E. unfold recoveryPenalty.
  destruct (Qlt_bool 60 q) eqn:E60.
  { apply Qlt_bool_iff in E60. lra. }
  destruct (Qlt_bool 30 q) eqn:E30.
  { apply Qlt_bool_iff in E30. lra. }
  reflexivity.
Qed.

(** With plain keys the running value is a number: the six terms of the
    source, each score defaulted with [||]. *)
Lemma qol_raw_plain (surgical chronic : Raw.agent_data)
  (comparison : Raw.comparison_side) :
  plain_chronic chronic ->
  exists q,
    qol_raw surgical chronic comparison = Fin q /\
    q ==
      or_num (Raw.effectiveness_score comparison) 7.5 * 10
      - or_num (Raw.invasiveness_score surgical) 5 * 1.2
      - or_num (Raw.medication_burden_score chronic) 5 * 1.0
      + lifestyleAdjustment (Raw.lifestyle_impact chronic)
      + stabilityAdjustment (Raw.disease_stability chronic)
      - recoveryPenalty (or_num (Raw.recovery_time_days surgical) 30).
Proof.
  intros [Hl Hs]. unfold qol_raw, recoveryPenalty. cbn zeta.
  rewrite (lifestyle_lookup Hl), (stability_lookup Hs). cbn [num_add].
  destruct (Qlt_bool 60 _); [|destruct (Qlt_bool 30 _)]; cbn [num_sub];
    (eexists; split; [reflexivity | ring]).
Qed.

(** With a key that names an inherited member the running value is no
    number. *)
Lemma qol_raw_inherited (surgical chronic : Raw.agent_data)
  (comparison : Raw.comparison_side) :
  inherited (show (Raw.lifestyle_impact chronic)) = true \/
  inherited (show (Raw.disease_stability chronic)) = true ->
  qol_raw surgical chronic comparison = NaN.
Proof.
  intros H. unfold qol_raw. cbn zeta.
  assert (E : num_add
                (num_add
                   (Fin (or_num (Raw.effectiveness_score comparison) 7.5 * 10
                         - or_num (Raw.invasiveness_score surgical) 5 * 1.2
                         - or_num (Raw.medication_burden_score chronic) 5 * 1.0))
                   (entry_number
                      (or_property is_zero
                         (lookup (show (Raw.lifestyle_impact chronic))
                            lifestyleImpact) 0)))
                (entry_number
                   (or_property is_zero
                      (lookup (show (Raw.disease_stability chronic))
                         stabilityBonus) 0)) = NaN).
  { destruct H as [H | H];
      destruct (inherited_own_none _ H) as (Hl & Hb & _).
    - now rewrite (@lookup_inherited _ _ _ H Hl).
    - rewrite (@lookup_inherited _ _ _ H Hb). cbn [or_property entry_number].
      now destruct (entry_number _). }
  rewrite E.
  destruct (Qlt_bool 60 _); [|destruct (Qlt_bool 30 _)]; reflexivity.
Qed.

(** The scorer on plain keys: the seven-step algorithm, a score of 0
    counting as an absent one. *)
Lemma calculateQualityOfLife_plain (surgical chronic : Raw.agent_data)
  (comparison : Raw.comparison_side) :
  plain_chronic chronic ->
  calculateQualityOfLife surgical chronic comparison =
  Int (Spec.qualityOfLifeOf
         (zero_as_absent (Raw.effectiveness_score comparison))
         (zero_as_absent (Raw.invasiveness_score surgical))
         (zero_as_absent (Raw.medication_burden_score chronic))
         (Raw.lifestyle_impact chronic)
         (Raw.disease_stability chronic)
         (Raw.recovery_time_days surgical)).
Proof.
  intros H.
  destruct (@qol_raw_plain surgical chronic comparison H) as (q & Hq & Heq).
  unfold calculateQualityOfLife. rewrite Hq. cbn [num_round].
  rewrite num_min_Int, num_max_Int.
  unfold Spec.qualityOfLifeOf, clamp, Math_round. cbn zeta.
  do 3 f_equal. apply Qfloor_comp.
  rewrite Heq, recovery_penalty_default, !or_num_zero_as_absent.
  reflexivity.
Qed.

Lemma calculateQualityOfLife_plain_bounds (surgical chronic : Raw.agent_data)
  (comparison : Raw.comparison_side) :
  plain_chronic chronic ->
  int_in 40 100 (calculateQualityOfLife surgical chronic comparison).
Proof.
  intros H. rewrite (@calculateQualityOfLife_plain surgical chronic comparison H).
  eexists. split; [reflexivity|].
  unfold Spec.qualityOfLifeOf, clamp. cbn zeta. lia.
Qed.

(** The result is an integer between 40 and 100, or [NaN]. *)
Lemma calculateQualityOfLife_cases (surgical chronic : Raw.agent_data)
  (comparison : Raw.comparison_side) :
  calculateQualityOfLife surgical chronic comparison = NaN \/
  int_in 40 100 (calculateQualityOfLife surgical chronic comparison).
Proof.
  unfold calculateQualityOfLife.
  destruct (qol_raw surgical chronic comparison) as [q|]; [right | now left].
  apply clamped_round_int_in. lia.
Qed.

(** C6, where the code departs from it.  A [lifestyle_impact] or a
    [disease_stability] that names a member every object inherits (such as
    ['constructor']) is found in the table, passes the [|| 0] default and
    makes the running value a text; the clamp to [40,100] lets the
    resulting [NaN] through. *)
Theorem calculateQualityOfLife_NaN (surgical chronic : Raw.agent_data)
  (comparison : Raw.comparison_side) :
  inherited (show (Raw.lifestyle_impact chronic)) = true \/
  inherited (show (Raw.disease_stability chronic)) = true ->
  calculateQualityOfLife surgical chronic comparison = NaN.
Proof.
  intros H. unfold calculateQualityOfLife.
  now rewrite (@qol_raw_inherited surgical chronic comparison H).
Qed.

Lemma calculateQualityOfLife_NaN_witness :
  calculateQualityOfLife Raw.empty More.constructorChronic Examples.bareSide =
  NaN.
Proof.
  apply calculateQualityOfLife_NaN. left. reflexivity.
Defined.

(** C5, as the code has it.  When [lifestyle_impact] and
    [disease_stability] name no inherited member, the scorer is the
    seven-step algorithm of the specification applied after every
    [effectiveness_score], [invasiveness_score] and
    [medication_burden_score] equal to 0 has been taken as absent: such a
    score takes its default 7.5, 5 or 5. *)
Theorem calculateQualityOfLife_spec (surgical chronic : Raw.agent_data)
  (comparison : Raw.comparison_side) :
  plain_key (Raw.lifestyle_impact chronic) ->
  plain_key (Raw.disease_stability chronic) ->
  calculateQualityOfLife surgical chronic comparison =
  Int (Spec.qualityOfLifeOf
         (zero_as_absent (Raw.effectiveness_score comparison))
         (zero_as_absent (Raw.invasiveness_score surgical))
         (zero_as_absent (Raw.medication_burden_score chronic))
         (Raw.lifestyle_impact chronic)
         (Raw.disease_stability chronic)
         (Raw.recovery_time_days surgical)).
Proof.
  intros Hl Hs. apply calculateQualityOfLife_plain. now split.
Qed.

Lemma calculateQualityOfLife_spec_witness :
  calculateQualityOfLife
    (More.surgicalData (Some 0) (Some 45))
    (More.chronicFull (Some 3) (Some "moderate"%string) (Some "good"%string))
    Examples.documentedSide =
  Int (Spec.qualityOfLifeOf (Some 8.2) None (Some 3)
         (Some "moderate"%string) (Some "good"%string) (Some 45)).
Proof.
  apply (@calculateQualityOfLife_spec
           (More.surgicalData (Some 0) (Some 45))
           (More.chronicFull (Some 3) (Some "moderate"%string)
              (Some "good"%string))
           Examples.documentedSide); reflexivity.
Defined.

(** C5 as stated fails: an effectiveness score of 0 is replaced by 7.5 in
    the code ([||]), where the specification ([??]) keeps it. *)
Lemma calculateQualityOfLife_zero_effectiveness :
  calculateQualityOfLife Raw.empty Raw.empty
    (Examples.side None (Some 0) None) = Int 64 /\
  Spec.qualityOfLife Raw.empty Raw.empty
    (Examples.side None (Some 0) None) = 40%Z.
Proof.
  split; vm_compute; reflexivity.
Qed.

End QualityOfLife.

(* ------------------------------------------------------------------ *)
(** ** Delay impact *)

Section DelayImpact.

(** The delay values for an immediate quality of life that is a number. *)
Lemma delay_values_Int (q : Z) :
  num_max (Int 50) (num_sub (Int q) (Int 10)) = Int (Z.max 50 (q - 10)) /\
  num_max (Int 40) (num_sub (Int q) (Int 20)) = Int (Z.max 40 (q - 20)).
Proof.
  now rewrite !num_sub_Int, !num_max_Int.
Qed.

(** C4, as the code has it.  The three projected values are the immediate
    quality of life [q], [max(50, q - 10)] and [max(40, q - 20)].  The
    three-month value never exceeds the other two; the one-month value stays
    at or below the immediate one exactly when [q] is at least 50.  The
    immediate value is an integer between 40 and 100 or [NaN]; when it is an
    integer so are the other two, which the three-month value does not
    exceed. *)
Theorem delay_impact_order (p : option Raw.payload) (m : Model.t) :
  transformBackendResponse p = Return m ->
  Model.qol_immediate (Model.delay_impact m) =
    Model.quality_of_life (Model.outcome_a m) /\
  Model.qol_1month (Model.delay_impact m) =
    num_max (Int 50)
      (num_sub (Model.qol_immediate (Model.delay_impact m)) (Int 10)) /\
  Model.qol_3months (Model.delay_impact m) =
    num_max (Int 40)
      (num_sub (Model.qol_immediate (Model.delay_impact m)) (Int 20)) /\
  ~ num_lt (Model.qol_1month (Model.delay_impact m))
      (Model.qol_3months (Model.delay_impact m)) /\
  ~ num_lt (Model.qol_immediate (Model.delay_impact m))
      (Model.qol_3months (Model.delay_impact m)) /\
  (num_le (Model.qol_1month (Model.delay_impact m))
     (Model.qol_immediate (Model.delay_impact m)) <->
   num_le (Int 50) (Model.qol_immediate (Model.delay_impact m))) /\
  (Model.qol_immediate (Model.delay_impact m) = NaN \/
   int_in 40 100 (Model.qol_immediate (Model.delay_impact m))) /\
  (forall q, Model.qol_immediate (Model.delay_impact m) = Int q ->
     (40 <= q <= 100)%Z /\
     Model.qol_1month (Model.delay_impact m) = Int (Z.max 50 (q - 10)) /\
     Model.qol_3months (Model.delay_impact m) = Int (Z.max 40 (q - 20)) /\
     num_le (Model.qol_3months (Model.delay_impact m))
       (Model.qol_1month (Model.delay_impact m)) /\
     num_le (Model.qol_3months (Model.delay_impact m))
       (Model.qol_immediate (Model.delay_impact m))).
Proof.
  intros H.
  destruct (transform_Return_inv _ H) as (d & ag & ca & cb & -> & Hs).
  destruct (transform_structured Hs)
    as (m' & Hm' & Ha & _ & _ & _ & _ & _ & _ & Hq0 & Hq1 & Hq3 & _).
  rewrite H in Hm'. injection Hm' as <-.
  rewrite Hq1, Hq3, Hq0, Ha. cbn [Model.quality_of_life outcomeOf].
  split; [reflexivity|]. split; [reflexivity|]. split; [reflexivity|].
  destruct (calculateQualityOfLife_cases (surgicalA ag) (chronicA ag) ca)
    as [E | (q & E & Hq)]; rewrite E.
  - cbn. split; [tauto|]. split; [tauto|]. split; [tauto|].
    split; [now left|].
    intros q Hq. discriminate Hq.
  - destruct (delay_values_Int q) as [E1 E3]. rewrite E1, E3.
    rewrite !num_lt_Int, !num_le_Int.
    split; [lia|]. split; [lia|]. split; [lia|].
    split; [right; exists q; split; [reflexivity | exact Hq]|].
    intros q' Hq'.
    apply (f_equal (fun n => match n with
                             | Fin x => Qnum x
                             | NaN => 0%Z
                             end)) in Hq'.
    cbn in Hq'. subst q'. rewrite !num_le_Int.
    repeat split; lia.
Qed.

Lemma delay_impact_order_witness :
  exists m,
    transformBackendResponse (Some More.reportingPayload) = Return m /\
    num_le (Model.qol_3months (Model.delay_impact m))
      (Model.qol_1month (Model.delay_impact m)) /\
    num_le (Model.qol_1month (Model.delay_impact m))
      (Model.qol_immediate (Model.delay_impact m)).
Proof.
  eexists. split; [reflexivity|].
  destruct (delay_impact_order (Some More.reportingPayload) eq_refl)
    as (_ & _ & _ & _ & _ & H10 & _ & H).
  split.
  - exact (proj1 (proj2 (proj2 (proj2 (H 72%Z eq_refl))))).
  - apply H10. vm_compute. discriminate.
Defined.

(** C4 as stated fails: with an effectiveness score of 4 the immediate
    quality of life is the floor 40, and the one-month value is 50. *)
Lemma delay_impact_not_monotone :
  exists m,
    transformBackendResponse (Some Examples.lowEffectivenessPayload) = Return m /\
    Model.qol_immediate (Model.delay_impact m) = Int 40 /\
    Model.qol_1month (Model.delay_impact m) = Int 50 /\
    num_lt (Model.qol_immediate (Model.delay_impact m))
      (Model.qol_1month (Model.delay_impact m)).
Proof.
  eexists. split; [reflexivity|]. vm_compute. repeat split.
Qed.

End DelayImpact.

(* ------------------------------------------------------------------ *)
(** ** Confidence *)

Section Confidence.

Local Open Scope string_scope.

Lemma prefix_includes (p t s : string) :
  prefix (p ++ t) s = true -> includes s t = true.
Proof.
  revert s. induction p as [|a p IH]; intros s H.
  - destruct s; cbn [includes]; cbn [append] in H; rewrite H; reflexivity.
  - destruct s as [|b s]; cbn [append prefix] in H; [discriminate|].
    destruct (ascii_dec a b); [|discriminate].
    cbn [includes]. rewrite (IH s H). apply orb_true_r.
Qed.

(** A string that includes [p ++ t] includes [t]. *)
Lemma includes_tail (p t s : string) :
  includes s (p ++ t) = true -> includes s t = true.
Proof.
  induction s as [|c s IH]; cbn [includes]; intros H.
  - rewrite orb_false_r in H. apply (prefix_includes p t "") in H.
    cbn [includes] in H. exact H.
  - apply orb_true_iff in H. destruct H as [H|H].
    + apply (prefix_includes p t (String c s)) in H.
      cbn [includes] in H. exact H.
    + rewrite (IH H). apply orb_true_r.
Qed.

(** C3, where the code departs from it.  The positive phrase is tested
    first, and every text that contains "not recommend" contains
    "recommend": for such a text the scorer applies +10, not -10, and the
    branch that would apply -10 is never taken. *)
Theorem recommendation_not_recommend (safety risk : Raw.agent_data)
  (comparison : Raw.comparison_side) (s : string) :
  Raw.recommendation safety = Some s ->
  includes (toLowerCase s) "not recommend" = true ->
  recommendationAdjustment safety = 10%Q /\
  calculateConfidence safety risk comparison =
    Z.max 0 (Z.min 100 (Math_round
      (50 + (10 - or_num (Raw.severity_score safety) 5) * 5
       + (or_num (Raw.overall_safety_score comparison) 5 - 5) * 4
       - or_num (Raw.complication_probability risk) 0.15 * 100
       + 10)%Q)).
Proof.
  intros Hs Hn.
  assert (Ha : recommendationAdjustment safety = 10%Q).
  { unfold recommendationAdjustment. rewrite Hs. cbn [show truthy].
    assert (Hr : includes (toLowerCase s) "recommend" = true)
      by exact (includes_tail "not " "recommend" _ Hn).
    rewrite Hr.
    destruct s as [|c s]; [discriminate Hn | reflexivity]. }
  split; [exact Ha|].
  unfold calculateConfidence, confidence_raw. cbn zeta. now rewrite Ha.
Qed.

Lemma recommendation_not_recommend_witness :
  recommendationAdjustment Examples.adverseSafety = 10%Q /\
  calculateConfidence Examples.adverseSafety Raw.empty Examples.bareSide = 70%Z.
Proof.
  exact (@recommendation_not_recommend Examples.adverseSafety Raw.empty
           Examples.bareSide "Not recommended" eq_refl eq_refl).
Defined.

(** The confidence at the failing input: 50 + 25 + 0 - 15 + 10, where the
    specification's -10 gives 50. *)
Lemma calculateConfidence_adverse :
  calculateConfidence Examples.adverseSafety Raw.empty Examples.bareSide = 70%Z.
Proof.
  vm_compute. reflexivity.
Qed.

(** The worked example of the specification. *)
Lemma calculateConfidence_example :
  calculateConfidence Examples.exampleSafety Examples.exampleRisk
    Examples.exampleSide = 97%Z.
Proof.
  vm_compute. reflexivity.
Qed.

(** The adjustment is never negative. *)
Lemma recommendationAdjustment_values (safety : Raw.agent_data) :
  recommendationAdjustment safety = 10%Q \/
  recommendationAdjustment safety = 0%Q.
Proof.
  unfold recommendationAdjustment.
  destruct (truthy (Raw.recommendation safety)); cbn [andb]; [|now right].
  destruct (includes _ "recommend") eqn:Hr; [now left|].
  destruct (includes _ "not recommend") eqn:Hn; [|now right].
  apply (includes_tail "not " "recommend") in Hn. congruence.
Qed.

Lemma calculateConfidence_clamped (safety risk : Raw.agent_data)
  (comparison : Raw.comparison_side) :
  (0 <= calculateConfidence safety risk comparison <= 100)%Z.
Proof.
  unfold calculateConfidence. lia.
Qed.

End Confidence.

(* ------------------------------------------------------------------ *)
(** ** Timeline *)

Section Timeline.

Local Open Scope Q_scope.

Variables surgical chronic risk : Raw.agent_data.
Variable comparison : Raw.comparison_side.

(** The loop ends by its guard, after the months 0, 3, ..., 18. *)
Lemma generateTimelineData_points :
  generateTimelineData surgical chronic risk comparison =
  map (timelinePoint surgical chronic risk comparison) timelineMonths.
Proof.
  reflexivity.
Qed.

Lemma timelinePoint_risk (i : Z) :
  (10 <= Model.risk (timelinePoint surgical chronic risk comparison i) <= 90)%Z.
Proof.
  unfold timelinePoint. cbn [Model.risk]. cbn zeta.
  match goal with |- context [Math_round (Qmin 90 ?x)] =>
    assert (H : (Math_round (Qmin 90 x) <= Math_round (inject_Z 90))%Z)
      by (apply Math_round_mono; apply Q.le_min_l)
  end.
  rewrite Math_round_Z in H. lia.
Qed.

(** The factor read from the table for a plain key: the table's entry, 0.5
    for the entry 0.0 of ['poor'] and for a key that is not in the table. *)
Lemma stabilityFactor_lookup (key : string) :
  inherited key = false ->
  exists f,
    entry_number (or_property is_zero (lookup key stabilityFactors) 0.5) =
      Fin f /\ 0 < f.
Proof.
  intros H. rewrite (@lookup_plain _ _ _ H).
  cbn [own stabilityFactors].
  table_cases key ltac:(eexists; split; [reflexivity | reflexivity]).
Qed.

Lemma timelinePoint_score (i : Z) :
  effectiveness_ok comparison ->
  plain_key (Raw.disease_stability chronic) ->
  int_in 40 100
    (Model.score (timelinePoint surgical chronic risk comparison i)).
Proof.
  intros [e He] Hk. unfold timelinePoint. cbn [Model.score]. cbn zeta.
  rewrite He. cbn [to_number num_mul].
  destruct (@stabilityFactor_lookup _
              (@plain_key_or_str _ "fair"%string Hk eq_refl))
    as (f & Hf & _).
  rewrite Hf.
  destruct (i <? _)%Z; cbn [num_mul num_add];
    apply clamped_round_int_in; lia.
Qed.

(** Past the recovery phase a stability that names an inherited member
    makes the score [NaN], whatever the effectiveness. *)
Lemma timelinePoint_score_inherited (i : Z) :
  inherited (or_str (Raw.disease_stability chronic) "fair") = true ->
  (Math_ceil (or_num (Raw.recovery_time_days surgical) 30 / 30) <= i)%Z ->
  Model.score (timelinePoint surgical chronic risk comparison i) = NaN.
Proof.
  intros Hk Hi. unfold timelinePoint. cbn [Model.score]. cbn zeta.
  destruct (inherited_own_none _ Hk) as (_ & _ & Hf & _).
  rewrite (@lookup_inherited _ _ _ Hk Hf).
  cbn [or_property entry_number num_mul].
  apply Z.ltb_ge in Hi. rewrite Hi.
  now destruct (num_mul _ _).
Qed.

Lemma timelinePoint_score_NaN (i : Z) :
  Raw.effectiveness_score comparison = None ->
  Model.score (timelinePoint surgical chronic risk comparison i) = NaN.
Proof.
  intros He. unfold timelinePoint. cbn [Model.score]. cbn zeta.
  rewrite He. cbn [to_number num_mul].
  destruct (i <? _)%Z; reflexivity.
Qed.

(** The timeline always has its 7 points at the months 0, 3, ..., 18, with
    the fixed event markers and every risk between 10 and 90; the scores are
    integers between 40 and 100 when [effectiveness_score] is present and
    [disease_stability] names no inherited member. *)
Lemma generateTimelineData_shape :
  map Model.month (generateTimelineData surgical chronic risk comparison) =
    timelineMonths /\
  map Model.event (generateTimelineData surgical chronic risk comparison) =
    timelineEvents /\
  Forall (fun p => (10 <= Model.risk p <= 90)%Z)
    (generateTimelineData surgical chronic risk comparison) /\
  (effectiveness_ok comparison ->
   plain_key (Raw.disease_stability chronic) ->
   Forall (fun p => int_in 40 100 (Model.score p))
     (generateTimelineData surgical chronic risk comparison)).
Proof.
  rewrite generateTimelineData_points.
  split; [reflexivity|]. split; [reflexivity|]. split.
  - apply Forall_map, Forall_forall. intros i _. apply timelinePoint_risk.
  - intros H Hk. apply Forall_map, Forall_forall. intros i _.
    now apply timelinePoint_score.
Qed.

Lemma generateTimelineData_ok :
  effectiveness_ok comparison ->
  plain_key (Raw.disease_stability chronic) ->
  timeline_ok (generateTimelineData surgical chronic risk comparison).
Proof.
  intros H Hk.
  destruct generateTimelineData_shape as (Hm & _ & Hr & Hs).
  split; [exact Hm|]. specialize (Hs H Hk).
  rewrite Forall_forall in *. intros p Hp. split; auto.
Qed.

(** C7, where the code departs from it.  The initial quality of life is
    [effectiveness_score * 10] with no default: when the comparison side
    has no [effectiveness_score] every score of the timeline is [NaN], which
    the clamp to [40,100] lets through. *)
Theorem generateTimelineData_score_NaN :
  Raw.effectiveness_score comparison = None ->
  map Model.score (generateTimelineData surgical chronic risk comparison) =
  [NaN; NaN; NaN; NaN; NaN; NaN; NaN].
Proof.
  intros He. rewrite generateTimelineData_points.
  unfold timelineMonths. cbn [map].
  now rewrite !timelinePoint_score_NaN.
Qed.

End Timeline.

Lemma generateTimelineData_score_NaN_witness :
  map Model.score
    (generateTimelineData Raw.empty Raw.empty Raw.empty Examples.bareSide) =
  [NaN; NaN; NaN; NaN; NaN; NaN; NaN].
Proof.
  apply generateTimelineData_score_NaN. reflexivity.
Defined.

(* ------------------------------------------------------------------ *)
(** ** Risk scores *)

Section Risks.

Local Open Scope Q_scope.

Lemma calculateRiskScore_readmission (r : Raw.agent_data) :
  plain_level (Raw.readmission_risk r) ->
  calculateRiskScore (Some r) "readmission" =
  Own (readmissionScore (Raw.readmission_risk r)).
Proof.
  intros H. unfold plain_level in H.
  unfold calculateRiskScore, readmissionScore.
  cbn [String.eqb Ascii.eqb Bool.eqb].
  rewrite (@lookup_plain _ _ _ H).
  destruct (Raw.readmission_risk r) as [s|]; [|reflexivity].
  cbn [option_map show own readmissionMap]. cbn zeta.
  table_cases (toLowerCase s) ltac:(reflexivity).
Qed.

(** A level that in lower case names an inherited member is answered with
    that member, not with a value of the table. *)
Lemma calculateRiskScore_inherited (r : Raw.agent_data) :
  inherited (show (option_map toLowerCase (Raw.readmission_risk r))) = true ->
  calculateRiskScore (Some r) "readmission" =
  Inherited (show (option_map toLowerCase (Raw.readmission_risk r))).
Proof.
  intros H. unfold calculateRiskScore.
  cbn [String.eqb Ascii.eqb Bool.eqb].
  destruct (inherited_own_none _ H) as (_ & _ & _ & _ & Hm).
  now rewrite (@lookup_inherited _ _ _ H Hm).
Qed.

Lemma readmissionScore_range (level : option string) :
  (0 <= readmissionScore level <= 100)%Z.
Proof.
  unfold readmissionScore. destruct level as [s|]; [|lia]. cbn zeta.
  table_cases (toLowerCase s) ltac:(lia).
Qed.

Lemma calculateRiskScore_complications (r : Raw.agent_data) :
  calculateRiskScore (Some r) "complications" =
  Own (Math_round (or_num (Raw.complication_probability r) 0.5 * 100)).
Proof.
  reflexivity.
Qed.

Lemma complications_range (r : Raw.agent_data) :
  probability_ok r ->
  (0 <= Math_round (or_num (Raw.complication_probability r) 0.5 * 100)
     <= 100)%Z.
Proof.
  intros H. apply Math_round_between.
  change (inject_Z 0) with 0. change (inject_Z 100) with 100.
  unfold or_num. destruct (Raw.complication_probability r) as [p|] eqn:E.
  - specialize (H p E). destruct (Qeq_bool p 0); lra.
  - lra.
Qed.

Lemma deteriorationScore_present (c : Raw.comparison_side) (b : Q) :
  Raw.patient_burden_score c = Some b ->
  deteriorationScore c = Int (Math_round (b * 10)).
Proof.
  intros H. unfold deteriorationScore. now rewrite H.
Qed.

Lemma deteriorationScore_range (c : Raw.comparison_side) :
  burden_ok c -> int_in 0 100 (deteriorationScore c).
Proof.
  intros (b & Hb & Hr). rewrite (deteriorationScore_present _ Hb).
  eexists. split; [reflexivity|].
  apply Math_round_between.
  change (inject_Z 0) with 0. change (inject_Z 100) with 100. lra.
Qed.

Lemma calculateRiskScore_readmission_value (r : Raw.agent_data) :
  readmission_value r (calculateRiskScore (Some r) "readmission").
Proof.
  intros H. rewrite (@calculateRiskScore_readmission r H).
  split; [reflexivity|]. eexists. split; [reflexivity|].
  apply readmissionScore_range.
Qed.

Lemma calculateRiskScore_complications_value (r : Raw.agent_data) :
  complications_value r (calculateRiskScore (Some r) "complications").
Proof.
  rewrite calculateRiskScore_complications. split; [reflexivity|].
  intros H. eexists. split; [reflexivity|]. now apply complications_range.
Qed.

Lemma deteriorationScore_value (c : Raw.comparison_side) :
  deterioration_value c (deteriorationScore c).
Proof.
  intros b Hb. split; [now apply deteriorationScore_present|].
  intros Hr. apply deteriorationScore_range. now exists b.
Qed.

(** C8, as the code has it.  For every accepted payload and each treatment
    on its own: the readmission value of a level that does not name an
    inherited member comes from the table on the lowercased level with
    default 50, and is an integer within [0,100]; the complications value is
    [round((p || 0.5) * 100)], within [0,100] when the probability is absent
    or between 0 and 1; the deterioration value of a present burden score is
    [round(patient_burden_score * 10)], within [0,100] when the score is
    between 0 and 10. *)
Theorem risks_values (d : Raw.payload) (ag : Raw.agents_t)
  (ca cb : Raw.comparison_side) :
  structured d ag ca cb ->
  exists m,
    transformBackendResponse (Some d) = Return m /\
    readmission_value (riskA ag)
      (Model.treatmentA (Model.readmission (Model.risks m))) /\
    readmission_value (riskB ag)
      (Model.treatmentB (Model.readmission (Model.risks m))) /\
    complications_value (riskA ag)
      (Model.treatmentA (Model.complications (Model.risks m))) /\
    complications_value (riskB ag)
      (Model.treatmentB (Model.complications (Model.risks m))) /\
    deterioration_value ca
      (Model.treatmentA (Model.deterioration (Model.risks m))) /\
    deterioration_value cb
      (Model.treatmentB (Model.deterioration (Model.risks m))).
Proof.
  intros Hs.
  destruct (transform_structured Hs)
    as (m & Hm & _ & _ & _ & _ & Hre & Hco & Hde & _).
  exists m. split; [exact Hm|].
  rewrite Hre, Hco, Hde. cbn [Model.treatmentA Model.treatmentB].
  split; [apply calculateRiskScore_readmission_value|].
  split; [apply calculateRiskScore_readmission_value|].
  split; [apply calculateRiskScore_complications_value|].
  split; [apply calculateRiskScore_complications_value|].
  split; apply deteriorationScore_value.
Qed.

Lemma risks_values_witness :
  exists m,
    transformBackendResponse (Some More.reportingPayload) = Return m /\
    Model.readmission (Model.risks m) =
      {| Model.treatmentA := Own 75%Z; Model.treatmentB := Own 25%Z |} /\
    risks_ok (Model.risks m).
Proof.
  destruct (@risks_values More.reportingPayload More.reportingAgents
              Examples.documentedSide More.secondSide)
    as (m & Hm & Hra & Hrb & Hca & Hcb & Hda & Hdb).
  - split; [reflexivity|]. eexists. repeat split.
  - exists m. split; [exact Hm|].
    destruct (Hra eq_refl) as [Era Ira]. destruct (Hrb eq_refl) as [Erb Irb].
    split.
    { destruct (Model.readmission (Model.risks m)) as [a b].
      cbn [Model.treatmentA Model.treatmentB] in Era, Erb.
      rewrite Era, Erb. reflexivity. }
    split; [exact Ira|]. split; [exact Irb|].
    split.
    { apply Hca. intros q H. injection H as <-. lra. }
    split.
    { apply Hcb. intros q H. injection H as <-. lra. }
    split.
    + apply (Hda 6.0 eq_refl). lra.
    + apply (Hdb 3 eq_refl). lra.
Defined.

(** C8 as stated fails: a complication probability reported as 15 gives a
    complications value of 1500, and a comparison side without
    [patient_burden_score] gives a [NaN] deterioration value. *)
Lemma risks_out_of_bounds :
  exists m,
    transformBackendResponse (Some Examples.percentPayload) = Return m /\
    Model.treatmentA (Model.complications (Model.risks m)) = Own 1500%Z /\
    Model.treatmentA (Model.deterioration (Model.risks m)) = NaN /\
    ~ risks_ok (Model.risks m).
Proof.
  eexists. split; [reflexivity|]. split; [vm_compute; reflexivity|].
  split; [reflexivity|].
  intros (_ & _ & (z & Hz & Hr) & _). vm_compute in Hz.
  injection Hz as <-. lia.
Qed.

(** Nor is the readmission value always a number: the level
    ['Constructor'] is answered with the member [constructor] that every
    object inherits, and the readmission change of the delay impact is
    [NaN]. *)
Lemma risks_inherited_level :
  exists m,
    transformBackendResponse (Some More.constructorLevelPayload) = Return m /\
    Model.treatmentA (Model.readmission (Model.risks m)) =
      Inherited "constructor" /\
    map Model.change (Model.risk_increases (Model.delay_impact m)) =
      [NaN; Int 0; Int 0] /\
    ~ risks_ok (Model.risks m).
Proof.
  eexists. split; [reflexivity|]. split; [reflexivity|].
  split; [vm_compute; reflexivity|].
  intros ((z & Hz & _) & _). discriminate Hz.
Qed.

End Risks.

(* ------------------------------------------------------------------ *)
(** ** Readmission risk *)

Section Readmission.

Local Open Scope string_scope.

Lemma readmissionMapping_lookup (s : string) :
  inherited (toLowerCase s) = false ->
  or_property is_empty (lookup (toLowerCase s) readmissionMapping) s =
  Own (directMapping s).
Proof.
  intros H. rewrite (@lookup_plain _ _ _ H).
  unfold directMapping. cbn [own readmissionMapping]. cbn zeta.
  table_cases (toLowerCase s) ltac:(reflexivity).
Qed.

Lemma directMapping_nonempty (s : string) :
  s <> "" -> directMapping s <> "".
Proof.
  intros H. unfold directMapping. cbn zeta.
  repeat (match goal with |- context [(toLowerCase s =? ?k)%string] =>
            destruct (toLowerCase s =? k)%string; [discriminate|] end).
  exact H.
Qed.

(** A level that maps to Low, Medium or High names no inherited member. *)
Lemma level_plain (s : string) :
  is_level (directMapping s) -> inherited (toLowerCase s) = false.
Proof.
  unfold directMapping. cbn zeta.
  repeat (match goal with |- context [(toLowerCase s =? ?k)%string] =>
            destruct (String.eqb_spec (toLowerCase s) k) as [-> | _];
            [reflexivity|] end).
  intros [-> | [-> | ->]]; reflexivity.
Qed.

(** A present, non-empty, plain level is mapped directly, whatever the
    fallback. *)
Lemma readmission_direct (s fallback : string) :
  s <> "" -> inherited (toLowerCase s) = false ->
  or_label (mapReadmissionRisk (Some s)) fallback = Own (directMapping s).
Proof.
  intros H Hp. unfold mapReadmissionRisk.
  apply String.eqb_neq in H as E. rewrite E.
  rewrite (readmissionMapping_lookup _ Hp). cbn [or_label]. unfold is_empty.
  apply directMapping_nonempty, String.eqb_neq in H. now rewrite H.
Qed.

(** A level that in lower case names an inherited member is answered with
    that member; the fallback is not consulted. *)
Lemma readmission_inherited (s fallback : string) :
  inherited (toLowerCase s) = true ->
  or_label (mapReadmissionRisk (Some s)) fallback = Inherited (toLowerCase s).
Proof.
  intros H. unfold mapReadmissionRisk.
  destruct (String.eqb_spec s "") as [-> | _]; [discriminate H|].
  destruct (inherited_own_none _ H) as (_ & _ & _ & Hm & _).
  now rewrite (@lookup_inherited _ _ _ H Hm).
Qed.

Lemma safetyThreshold_spec (c : Raw.comparison_side) :
  threshold_of (Raw.overall_safety_score c) (safetyThreshold c).
Proof.
  unfold safetyThreshold.
  destruct (Raw.overall_safety_score c) as [q|]; cbn [ge_opt];
    [|constructor].
  destruct (Qle_bool 7 q) eqn:E7.
  { constructor. now apply Qle_bool_iff. }
  assert (H7 : (q < 7)%Q).
  { apply Qnot_le_lt. intros H. apply Qle_bool_iff in H. congruence. }
  destruct (Qle_bool 4 q) eqn:E4.
  { constructor; [now apply Qle_bool_iff | exact H7]. }
  constructor. apply Qnot_le_lt. intros H. apply Qle_bool_iff in H. congruence.
Qed.

Lemma safetyThreshold_level (c : Raw.comparison_side) :
  is_level (safetyThreshold c).
Proof.
  unfold safetyThreshold, is_level.
  destruct (ge_opt _ 7); [|destruct (ge_opt _ 4)]; auto.
Qed.

Lemma outcome_readmission_precedence (r : Raw.agent_data)
  (c : Raw.comparison_side) :
  readmission_precedence (Raw.readmission_risk r) c
    (or_label (mapReadmissionRisk (Raw.readmission_risk r))
       (safetyThreshold c)).
Proof.
  split.
  - intros s -> Hs Hp. now apply readmission_direct.
  - intros [-> | ->]; (eexists; split; [reflexivity|]);
      apply safetyThreshold_spec.
Qed.

Lemma outcome_readmission_level (r : Raw.agent_data)
  (c : Raw.comparison_side) :
  level_ok r ->
  label_is_level
    (or_label (mapReadmissionRisk (Raw.readmission_risk r))
       (safetyThreshold c)).
Proof.
  intros H. destruct (Raw.readmission_risk r) as [s|] eqn:E.
  - destruct (String.eqb_spec s "") as [-> | Hne].
    + eexists. split; [reflexivity|]. apply safetyThreshold_level.
    + destruct (H s E) as [-> | Hl]; [contradiction|].
      rewrite (readmission_direct _ Hne (level_plain _ Hl)).
      eexists. split; [reflexivity | exact Hl].
  - eexists. split; [reflexivity|]. apply safetyThreshold_level.
Qed.

(** C9, as the code has it.  For each treatment the output
    [readmission_risk] is the direct mapping of the agent's level when that
    level is present, not the empty string and not, in lower case, the name
    of a member every object inherits (lowercased: low to Low, moderate to
    Medium, high and very-high to High, anything else unchanged), whatever
    the safety score; it is the threshold on [overall_safety_score] (at
    least 7 Low, at least 4 Medium, else High) when the level is absent or
    the empty string. *)
Theorem readmission_risk_precedence (d : Raw.payload) (ag : Raw.agents_t)
  (ca cb : Raw.comparison_side) :
  structured d ag ca cb ->
  exists m,
    transformBackendResponse (Some d) = Return m /\
    readmission_precedence (Raw.readmission_risk (riskA ag)) ca
      (Model.readmission_risk (Model.outcome_a m)) /\
    readmission_precedence (Raw.readmission_risk (riskB ag)) cb
      (Model.readmission_risk (Model.outcome_b m)).
Proof.
  intros Hs.
  destruct (transform_structured Hs) as (m & Hm & Ha & Hb & _).
  exists m. split; [exact Hm|].
  rewrite Ha, Hb. cbn [outcomeOf Model.readmission_risk].
  split; apply outcome_readmission_precedence.
Qed.

Lemma readmission_risk_precedence_witness :
  exists m,
    transformBackendResponse (Some Examples.moderatePayload) = Return m /\
    Model.readmission_risk (Model.outcome_a m) = Own "Medium" /\
    Model.readmission_risk (Model.outcome_b m) = Own "Low".
Proof.
  destruct (@readmission_risk_precedence Examples.moderatePayload
              (Examples.agentsWithRiskA
                 (Examples.riskData (Some 0.2%Q) (Some "moderate")))
              Examples.documentedSide Examples.documentedSide)
    as (m & Hm & [Ha _] & [_ Hb]).
  - split; [reflexivity|]. eexists. repeat split.
  - exists m. split; [exact Hm|]. split.
    + apply (Ha "moderate"); [reflexivity | discriminate | reflexivity].
    + destruct (Hb (or_introl eq_refl)) as (label & -> & Ht).
      inversion Ht as [q H7 | q H4 H7 | q H4 | ]; subst.
      * reflexivity.
      * exfalso. revert H7. vm_compute. discriminate.
      * exfalso. revert H4. vm_compute. discriminate.
Defined.

(** C9 as stated fails: an agent level that is present but empty is not
    passed through; the output is the threshold's value. *)
Lemma readmission_empty_level :
  exists m,
    transformBackendResponse (Some Examples.emptyLevelPayload) = Return m /\
    Raw.readmission_risk (riskA (Examples.agentsWithRiskA
                                   (Examples.riskData None (Some "")))) =
      Some "" /\
    Model.readmission_risk (Model.outcome_a m) = Own "Low" /\
    Spec.readmissionRisk (Some "") (Examples.side (Some 8%Q) None None) = "".
Proof.
  eexists. split; [reflexivity|]. repeat split.
Qed.

(** Nor is a level that names an inherited member passed through: for
    ['Constructor'] the output is the member [constructor], where the
    direct mapping gives the text unchanged. *)
Lemma readmission_inherited_level :
  exists m,
    transformBackendResponse (Some More.constructorLevelPayload) = Return m /\
    Model.readmission_risk (Model.outcome_a m) = Inherited "constructor" /\
    Spec.readmissionRisk (Some "Constructor") Examples.documentedSide =
      "Constructor".
Proof.
  eexists. split; [reflexivity|]. repeat split.
Qed.

End Readmission.

(* ------------------------------------------------------------------ *)
(** ** Reasoning *)

Section Reasoning.

Local Open Scope string_scope.

Lemma Forall_firstn_keep {A} (P : A -> Prop) (n : nat) (l : list A) :
  Forall P l -> Forall P (firstn n l).
Proof.
  intros H. revert n. induction H as [|x l Hx Hl IH]; intros [|n];
    cbn [firstn]; constructor; auto.
Qed.

Lemma Forall_filter_keep {A} (f : A -> bool) (l : list A) :
  Forall (fun x => f x = true) (filter f l).
Proof.
  induction l as [|x l IH]; cbn [filter]; [constructor|].
  destruct (f x) eqn:E; [constructor|]; assumption.
Qed.

Lemma nonempty_length (s : string) :
  (0 <? String.length s)%nat = true -> s <> "".
Proof.
  now destruct s.
Qed.

Lemma summaryLine_nonempty (c : Raw.comparison_side) :
  summaryLine "Treatment A" c <> "" /\ summaryLine "Treatment B" c <> "".
Proof.
  split; discriminate.
Qed.

(** Two leading non-empty entries survive the filter and the cut. *)
Lemma reasoning_cut (a b : string) (l : list string) :
  a <> "" -> b <> "" ->
  slice0 5 (filter (fun r => (0 <? String.length r)%nat) (a :: b :: l)) =
  a :: b :: slice0 3 (filter (fun r => (0 <? String.length r)%nat) l).
Proof.
  intros Ha Hb. destruct a; [contradiction|]. destruct b; [contradiction|].
  reflexivity.
Qed.

(** C10.  On every payload the transformation accepts, the reasoning list
    starts with the summary line of treatment A and then that of
    treatment B, each built from [cost_benefit_ratio] and [summary]; at most
    three entries follow, taken from the safety warnings and the final
    notes; the list has between 2 and 5 entries and none is empty. *)
Theorem reasoning_shape (d : Raw.payload) (ag : Raw.agents_t)
  (ca cb : Raw.comparison_side) :
  structured d ag ca cb ->
  exists m rest,
    transformBackendResponse (Some d) = Return m /\
    Model.reasoning (Model.explanation m) =
      ("Treatment A (" ++ show (Raw.cost_benefit_ratio ca) ++
       " cost-benefit): " ++ show (Raw.summary ca)) ::
      ("Treatment B (" ++ show (Raw.cost_benefit_ratio cb) ++
       " cost-benefit): " ++ show (Raw.summary cb)) :: rest /\
    rest =
      slice0 3
        (filter (fun r => (0 <? String.length r)%nat)
           (safetyWarning "Treatment A" (safetyA ag) ++
            safetyWarning "Treatment B" (safetyB ag) ++
            extractReasoningPoints (Raw.final_notes d))%list) /\
    (2 <= List.length (Model.reasoning (Model.explanation m)) <= 5)%nat /\
    Forall (fun r => r <> "") (Model.reasoning (Model.explanation m)).
Proof.
  intros Hs.
  destruct (transform_structured Hs)
    as (m & Hm & _ & _ & _ & _ & _ & _ & _ & _ & _ & _ & Hr).
  exists m. eexists. split; [exact Hm|].
  split; [|split; [reflexivity|]].
  - rewrite Hr. unfold reasoningCandidates. cbn [app].
    rewrite reasoning_cut by apply summaryLine_nonempty. reflexivity.
  - rewrite Hr. unfold reasoningCandidates. cbn [app]. split.
    + rewrite reasoning_cut by apply summaryLine_nonempty.
      cbn [List.length]. unfold slice0.
      match goal with |- context [firstn 3 ?l] =>
        pose proof (firstn_le_length 3 l) end.
      lia.
    + apply Forall_firstn_keep.
      eapply Forall_impl; [|apply Forall_filter_keep].
      intros s. apply nonempty_length.
Qed.

Lemma reasoning_shape_witness :
  exists m,
    transformBackendResponse (Some Examples.documentedPayload) = Return m /\
    Model.reasoning (Model.explanation m) =
      [ "Treatment A (favorable cost-benefit): Lower procedural risk";
        "Treatment B (favorable cost-benefit): Lower procedural risk" ].
Proof.
  destruct (@reasoning_shape Examples.documentedPayload Examples.bareAgents
              Examples.documentedSide Examples.documentedSide)
    as (m & rest & Hm & Hr & Hrest & _).
  - split; [reflexivity|]. eexists. repeat split.
  - exists m. split; [exact Hm|]. rewrite Hr, Hrest. reflexivity.
Defined.

End Reasoning.

(* ------------------------------------------------------------------ *)
(** ** Totality and bounds *)

Section Totality.

Local Open Scope Q_scope.

Lemma calculateUncertainty_level (risk safety : Raw.agent_data) :
  is_level (calculateUncertainty risk safety).
Proof.
  unfold calculateUncertainty, is_level. cbn zeta.
  destruct (Z.max 1 _ =? 1)%Z; [|destruct (Z.max 1 _ =? 2)%Z]; auto.
Qed.

(** A level within the vocabulary names no inherited member. *)
Lemma level_ok_plain (r : Raw.agent_data) :
  level_ok r -> plain_level (Raw.readmission_risk r).
Proof.
  intros H. unfold plain_level.
  destruct (Raw.readmission_risk r) as [s|] eqn:E; [|reflexivity].
  destruct (H s E) as [-> | Hl]; [reflexivity|].
  now apply level_plain.
Qed.

Lemma outcomeOf_ok (surgical chronic risk safety : Raw.agent_data)
  (c : Raw.comparison_side) :
  plain_chronic chronic ->
  level_ok risk ->
  outcome_ok (outcomeOf surgical chronic risk safety c).
Proof.
  intros Hc H. unfold outcome_ok, outcomeOf.
  cbn [Model.quality_of_life Model.readmission_risk Model.confidence
       Model.uncertainty].
  split; [now apply calculateQualityOfLife_plain_bounds|].
  split; [now apply outcome_readmission_level|].
  split; [apply calculateConfidence_clamped|].
  apply calculateUncertainty_level.
Qed.

(** C1, as the code has it.  For a payload with [agents], [comparison] and
    both comparison sides, whose comparison sides carry an
    [effectiveness_score] and a [patient_burden_score] between 0 and 10,
    whose chronic-care agent reports, per treatment, a lifestyle impact and
    a disease stability that do not name a member every object inherits,
    and whose risk agent reports, per treatment, a complication probability
    that is absent or between 0 and 1 and a readmission level that is
    absent, empty or mapped to Low, Medium or High (every other field
    present or absent at will), the transformation returns without error a
    model whose numeric fields are all inside their documented bounds and
    whose enumerated fields all have a documented value. *)
Theorem transform_total_bounded (d : Raw.payload) (ag : Raw.agents_t)
  (ca cb : Raw.comparison_side) :
  structured d ag ca cb ->
  inputs_in_range ag ca cb ->
  exists m, transformBackendResponse (Some d) = Return m /\ well_bounded m.
Proof.
  intros Hs (Hca & Hcb & Hpa & Hpb & Hla & Hlb & Hba & Hbb & Hea & Heb).
  destruct (transform_structured Hs)
    as (m & Hm & Hoa & Hob & Hta & Htb & Hre & Hco & Hde & _).
  exists m. split; [exact Hm|]. unfold well_bounded.
  rewrite Hoa, Hob, Hta, Htb.
  split; [now apply outcomeOf_ok|].
  split; [now apply outcomeOf_ok|].
  split; [apply generateTimelineData_ok; [exact Hea | exact (proj2 Hca)]|].
  split; [apply generateTimelineData_ok; [exact Heb | exact (proj2 Hcb)]|].
  unfold risks_ok. rewrite Hre, Hco, Hde.
  cbn [Model.treatmentA Model.treatmentB].
  split; [exact (proj2 (@calculateRiskScore_readmission_value _
                          (level_ok_plain Hla)))|].
  split; [exact (proj2 (@calculateRiskScore_readmission_value _
                          (level_ok_plain Hlb)))|].
  split; [exact (proj2 (calculateRiskScore_complications_value _) Hpa)|].
  split; [exact (proj2 (calculateRiskScore_complications_value _) Hpb)|].
  split; now apply deteriorationScore_range.
Qed.

Lemma transform_total_bounded_witness :
  exists m,
    transformBackendResponse (Some More.reportingPayload) = Return m /\
    well_bounded m.
Proof.
  apply (@transform_total_bounded More.reportingPayload
           More.reportingAgents Examples.documentedSide More.secondSide).
  - split; [reflexivity|]. eexists. repeat split.
  - assert (Hca : plain_chronic (chronicA More.reportingAgents))
      by (split; reflexivity).
    assert (Hcb : plain_chronic (chronicB More.reportingAgents))
      by (split; reflexivity).
    assert (Hpa : probability_ok (riskA More.reportingAgents))
      by (intros p H; injection H as <-; lra).
    assert (Hpb : probability_ok (riskB More.reportingAgents))
      by (intros p H; injection H as <-; lra).
    assert (Hla : level_ok (riskA More.reportingAgents)).
    { intros s H. injection H as <-. right. right. right. reflexivity. }
    assert (Hlb : level_ok (riskB More.reportingAgents)).
    { intros s H. injection H as <-. right. left. reflexivity. }
    assert (Hba : burden_ok Examples.documentedSide).
    { eexists. split; [reflexivity|]. lra. }
    assert (Hbb : burden_ok More.secondSide).
    { eexists. split; [reflexivity|]. lra. }
    assert (Hea : effectiveness_ok Examples.documentedSide)
      by (eexists; reflexivity).
    assert (Heb : effectiveness_ok More.secondSide)
      by (eexists; reflexivity).
    exact (conj Hca (conj Hcb (conj Hpa (conj Hpb (conj Hla (conj Hlb
            (conj Hba (conj Hbb (conj Hea Heb))))))))).
Defined.

(** C1 as stated fails.  With [agents] and [comparison] non-null, both
    comparison sides empty objects and the risk agent reporting the level
    ['critical'], the model is returned with [readmission_risk] equal to
    ['critical'], and with a [NaN] deterioration value. *)
Lemma transform_not_bounded :
  exists m,
    transformBackendResponse (Some Examples.criticalPayload) = Return m /\
    Model.readmission_risk (Model.outcome_a m) = Own "critical"%string /\
    Model.treatmentA (Model.deterioration (Model.risks m)) = NaN /\
    ~ well_bounded m.
Proof.
  eexists. split; [reflexivity|].
  split; [reflexivity|]. split; [reflexivity|].
  intros ((_ & (s & Hs & H) & _) & _). vm_compute in Hs.
  injection Hs as <-.
  destruct H as [H | [H | H]]; discriminate H.
Qed.

(** Nor does it hold when every score is in range: a lifestyle impact that
    names an inherited member gives a quality of life, and delay values,
    that are [NaN]. *)
Lemma transform_inherited_key (d : Raw.payload) (ag : Raw.agents_t)
  (ca cb : Raw.comparison_side) :
  structured d ag ca cb ->
  inherited (show (Raw.lifestyle_impact (chronicA ag))) = true \/
  inherited (show (Raw.disease_stability (chronicA ag))) = true ->
  exists m,
    transformBackendResponse (Some d) = Return m /\
    Model.quality_of_life (Model.outcome_a m) = NaN /\
    Model.qol_immediate (Model.delay_impact m) = NaN /\
    Model.qol_1month (Model.delay_impact m) = NaN /\
    Model.qol_3months (Model.delay_impact m) = NaN /\
    ~ well_bounded m.
Proof.
  intros Hs Hk.
  destruct (transform_structured Hs)
    as (m & Hm & Hoa & _ & _ & _ & _ & _ & _ & Hq0 & Hq1 & Hq3 & _).
  exists m. split; [exact Hm|].
  assert (E : Model.quality_of_life (Model.outcome_a m) = NaN).
  { rewrite Hoa. cbn [outcomeOf Model.quality_of_life].
    unfold calculateQualityOfLife.
    now rewrite (@qol_raw_inherited (surgicalA ag) (chronicA ag) ca Hk). }
  split; [exact E|].
  split; [now rewrite Hq0|].
  split; [now rewrite Hq1, E|].
  split; [now rewrite Hq3, E|].
  intros (((z & Hz & _) & _) & _). rewrite E in Hz. discriminate Hz.
Qed.

End Totality.

(* ------------------------------------------------------------------ *)
(** ** Insight combination *)

Section Insights.

Local Open Scope string_scope.

Lemma or_str_nonempty (x : option string) (d : string) :
  d <> "" -> or_str x d <> "".
Proof.
  intros Hd. destruct x as [s|]; cbn [or_str]; [|exact Hd].
  destruct (String.eqb_spec s ""); assumption.
Qed.

Lemma or_str_truthy (x : option string) (d : string) :
  truthy x = true -> or_str x d = show x.
Proof.
  destruct x as [s|]; cbn [truthy or_str show]; [|discriminate].
  now destruct (s =? "").
Qed.

Lemma or_str_falsy (x : option string) (d : string) :
  truthy x = false -> or_str x d = d.
Proof.
  destruct x as [s|]; cbn [truthy or_str]; [|reflexivity].
  now destruct (s =? "").
Qed.

Lemma append_nonempty_r (a b : string) : b <> "" -> a ++ b <> "".
Proof.
  intros Hb. destruct a; cbn [append]; [exact Hb | discriminate].
Qed.

(** X1.  [combineInsights] never returns the empty string, whatever the
    insights and the fallback label (absent, empty or not).  With both
    insights non-empty it is the two-part text; with exactly one it is that
    insight verbatim; with none it is the fallback label followed by
    " pending". *)
Theorem combineInsights_cases (insightA insightB : option string)
  (fallback : string) :
  combineInsights insightA insightB fallback <> "" /\
  (truthy insightA = true -> truthy insightB = true ->
   combineInsights insightA insightB fallback =
     "Treatment A: " ++ show insightA ++
     String LF (String LF "Treatment B: ") ++ show insightB) /\
  (truthy insightA = true -> truthy insightB = false ->
   combineInsights insightA insightB fallback = show insightA) /\
  (truthy insightA = false -> truthy insightB = true ->
   combineInsights insightA insightB fallback = show insightB) /\
  (truthy insightA = false -> truthy insightB = false ->
   combineInsights insightA insightB fallback = fallback ++ " pending").
Proof.
  unfold combineInsights. split; [|repeat split].
  - destruct (truthy insightA && truthy insightB); [discriminate|].
    apply or_str_nonempty, or_str_nonempty, append_nonempty_r. discriminate.
  - intros -> ->. reflexivity.
  - intros Ha Hb. rewrite Ha, Hb. cbn [andb]. now apply or_str_truthy.
  - intros Ha Hb. rewrite Ha, Hb. cbn [andb].
    rewrite (or_str_falsy _ _ Ha). now apply or_str_truthy.
  - intros Ha Hb. rewrite Ha, Hb. cbn [andb].
    rewrite (or_str_falsy _ _ Ha). now apply or_str_falsy.
Qed.

End Insights.

(* ------------------------------------------------------------------ *)
(** ** The readmission mapping as a function *)

Section Mapping.

Local Open Scope string_scope.

Lemma mapReadmissionRisk_present (s : string) :
  s <> "" -> inherited (toLowerCase s) = false ->
  mapReadmissionRisk (Some s) = Some (Own (directMapping s)).
Proof.
  intros H Hp. unfold mapReadmissionRisk.
  apply String.eqb_neq in H. rewrite H.
  now rewrite (readmissionMapping_lookup _ Hp).
Qed.

Lemma mapReadmissionRisk_inherited (s : string) :
  inherited (toLowerCase s) = true ->
  mapReadmissionRisk (Some s) = Some (Inherited (toLowerCase s)).
Proof.
  intros H. unfold mapReadmissionRisk.
  destruct (String.eqb_spec s "") as [-> | _]; [discriminate H|].
  destruct (inherited_own_none _ H) as (_ & _ & _ & Hm & _).
  now rewrite (@lookup_inherited _ _ _ H Hm).
Qed.

Lemma directMapping_cases (s : string) :
  directMapping s = "Low" \/ directMapping s = "Medium" \/
  directMapping s = "High" \/ directMapping s = s.
Proof.
  unfold directMapping. cbn zeta.
  table_cases (toLowerCase s) ltac:(tauto).
Qed.

Lemma directMapping_idempotent (s : string) :
  directMapping (directMapping s) = directMapping s.
Proof.
  destruct (directMapping_cases s) as [H | [H | [H | H]]]; rewrite H;
    try reflexivity.
  exact H.
Qed.

(** The direct mapping of a plain level is plain. *)
Lemma directMapping_plain (s : string) :
  inherited (toLowerCase s) = false ->
  inherited (toLowerCase (directMapping s)) = false.
Proof.
  intros Hp.
  destruct (directMapping_cases s) as [H | [H | [H | H]]]; rewrite H;
    try reflexivity.
  exact Hp.
Qed.

(** X2.  [mapReadmissionRisk] returns [null] exactly for an absent or empty
    level and never returns the empty string.  Whenever it returns a text,
    applying it to that text returns the same text.  For a level that in
    lower case names a member every object inherits it returns that member,
    which is no text. *)
Theorem mapReadmissionRisk_idempotent (riskLevel : option string) :
  (mapReadmissionRisk riskLevel = None <->
   riskLevel = None \/ riskLevel = Some "") /\
  mapReadmissionRisk riskLevel <> Some (Own "") /\
  (forall r, mapReadmissionRisk riskLevel = Some (Own r) ->
     mapReadmissionRisk (Some r) = Some (Own r)) /\
  (forall s, riskLevel = Some s -> inherited (toLowerCase s) = true ->
     mapReadmissionRisk riskLevel = Some (Inherited (toLowerCase s))).
Proof.
  destruct riskLevel as [s|];
    [|cbn; split; [tauto | split; [discriminate | split;
        [discriminate | discriminate]]]].
  destruct (String.eqb_spec s "") as [-> | Hne].
  { cbn. split; [tauto | split; [discriminate | split; [discriminate|]]].
    intros s H. injection H as <-. discriminate. }
  destruct (inherited (toLowerCase s)) eqn:Hp.
  - rewrite (mapReadmissionRisk_inherited _ Hp).
    split; [|split; [|split]].
    + split; [discriminate | intros [H | H]; [discriminate | congruence]].
    + discriminate.
    + discriminate.
    + intros s' H. now injection H as <-.
  - rewrite (mapReadmissionRisk_present Hne Hp).
    pose proof (directMapping_nonempty Hne) as Hd.
    split; [|split; [|split]].
    + split; [discriminate | intros [H | H]; [discriminate | congruence]].
    + congruence.
    + intros r H. injection H as <-.
      rewrite (mapReadmissionRisk_present Hd (directMapping_plain _ Hp)).
      now rewrite directMapping_idempotent.
    + intros s' H. injection H as <-. congruence.
Qed.

End Mapping.

(* ------------------------------------------------------------------ *)
(** ** How the scores move with their inputs *)

Section Monotonicity.

Local Open Scope Q_scope.

Lemma clamp_round_mono (lo hi : Z) (x y : Q) :
  x <= y ->
  (Z.max lo (Z.min hi (Math_round x)) <= Z.max lo (Z.min hi (Math_round y)))%Z.
Proof.
  intros H. apply Math_round_mono in H. lia.
Qed.

Lemma or_num_positive (p d : Q) : 0 < p -> or_num (Some p) d = p.
Proof.
  intros H. cbn [or_num]. destruct (Qeq_bool p 0) eqn:E; [|reflexivity].
  apply Qeq_bool_eq in E. lra.
Qed.

Lemma or_num_zero (p d : Q) : p == 0 -> or_num (Some p) d = or_num None d.
Proof.
  intros H. cbn [or_num]. now rewrite (Qeq_eq_bool _ _ H).
Qed.

(** X3.  The confidence never rises with the complication probability:
    of two risk assessments with positive probabilities, the one with the
    larger probability gets the smaller or equal confidence. *)
Theorem calculateConfidence_probability (safety risk risk' : Raw.agent_data)
  (comparison : Raw.comparison_side) (p p' : Q) :
  Raw.complication_probability risk = Some p ->
  Raw.complication_probability risk' = Some p' ->
  0 < p -> p <= p' ->
  (calculateConfidence safety risk' comparison <=
   calculateConfidence safety risk comparison)%Z.
Proof.
  intros H H' Hp Hle. unfold calculateConfidence.
  apply clamp_round_mono. unfold confidence_raw. cbn zeta.
  rewrite H, H', !or_num_positive by lra. lra.
Qed.

Lemma calculateConfidence_probability_witness :
  (calculateConfidence Raw.empty (Examples.riskData (Some 0.3%Q) None)
     Examples.bareSide <=
   calculateConfidence Raw.empty (Examples.riskData (Some 0.1%Q) None)
     Examples.bareSide)%Z.
Proof.
  apply (@calculateConfidence_probability Raw.empty
           (Examples.riskData (Some 0.1) None)
           (Examples.riskData (Some 0.3) None) Examples.bareSide 0.1 0.3);
    try reflexivity; lra.
Defined.

(** X4.  A complication probability of 0 is scored as a missing one, not as
    the best case: the confidence, the complications risk value (50), the
    risks of the timeline and, for the same readmission level, the
    uncertainty are those of a risk object without the field. *)
Theorem zero_probability_as_absent (surgical chronic safety : Raw.agent_data)
  (risk risk' : Raw.agent_data) (comparison : Raw.comparison_side) (p : Q) :
  Raw.complication_probability risk = Some p -> p == 0 ->
  Raw.complication_probability risk' = None ->
  Raw.readmission_risk risk = Raw.readmission_risk risk' ->
  calculateConfidence safety risk comparison =
    calculateConfidence safety risk' comparison /\
  calculateRiskScore (Some risk) "complications" = Own 50%Z /\
  calculateUncertainty risk safety = calculateUncertainty risk' safety /\
  map Model.risk (generateTimelineData surgical chronic risk comparison) =
    map Model.risk (generateTimelineData surgical chronic risk' comparison).
Proof.
  intros H Hz H' Hr. repeat split.
  - unfold calculateConfidence, confidence_raw. cbn zeta.
    now rewrite H, H', (or_num_zero _ Hz).
  - rewrite calculateRiskScore_complications, H, (or_num_zero _ Hz).
    vm_compute. reflexivity.
  - unfold calculateUncertainty. cbn zeta.
    now rewrite H, H', Hr, (or_num_zero _ Hz).
  - rewrite !generateTimelineData_points. unfold timelineMonths, timelinePoint.
    cbn [map Model.risk]. cbn zeta.
    now rewrite H, H', (or_num_zero _ Hz).
Qed.

Lemma zero_probability_as_absent_witness :
  calculateConfidence Raw.empty (Examples.riskData (Some 0) None)
    Examples.bareSide =
  calculateConfidence Raw.empty Raw.empty Examples.bareSide /\
  calculateRiskScore (Some (Examples.riskData (Some 0) None)) "complications" =
    Own 50%Z.
Proof.
  destruct (@zero_probability_as_absent Raw.empty Raw.empty Raw.empty
              (Examples.riskData (Some 0) None) Raw.empty Examples.bareSide 0
              eq_refl (Qeq_refl 0) eq_refl eq_refl) as (Hc & Hr & _).
  split; [exact Hc | exact Hr].
Defined.

(** X5.  When the lifestyle impact and the disease stability name no
    inherited member, the quality of life is a number that never falls with
    the effectiveness score: of two comparison sides with positive
    effectiveness scores, the one with the larger score gets the larger or
    equal quality of life. *)
Theorem calculateQualityOfLife_effectiveness
  (surgical chronic : Raw.agent_data) (c c' : Raw.comparison_side)
  (e e' : Q) :
  plain_key (Raw.lifestyle_impact chronic) ->
  plain_key (Raw.disease_stability chronic) ->
  Raw.effectiveness_score c = Some e ->
  Raw.effectiveness_score c' = Some e' ->
  0 < e -> e <= e' ->
  exists q q',
    calculateQualityOfLife surgical chronic c = Int q /\
    calculateQualityOfLife surgical chronic c' = Int q' /\
    (40 <= q <= q')%Z /\ (q' <= 100)%Z.
Proof.
  intros Hl Hs H H' He Hle.
  destruct (@qol_raw_plain surgical chronic c (conj Hl Hs)) as (x & Hx & Ex).
  destruct (@qol_raw_plain surgical chronic c' (conj Hl Hs))
    as (x' & Hx' & Ex').
  unfold calculateQualityOfLife. rewrite Hx, Hx'. cbn [num_round].
  rewrite !num_min_Int, !num_max_Int.
  eexists. eexists. split; [reflexivity|]. split; [reflexivity|].
  assert (Hxx : x <= x').
  { rewrite Ex, Ex', H, H', !or_num_positive by lra. lra. }
  apply (clamp_round_mono 40 100) in Hxx. lia.
Qed.

Lemma calculateQualityOfLife_effectiveness_witness :
  exists q q',
    calculateQualityOfLife (More.surgicalData (Some 7) (Some 45))
      (More.chronicFull (Some 3) (Some "moderate"%string)
         (Some "good"%string))
      (Examples.side None (Some 6%Q) None) = Int q /\
    calculateQualityOfLife (More.surgicalData (Some 7) (Some 45))
      (More.chronicFull (Some 3) (Some "moderate"%string)
         (Some "good"%string))
      (Examples.side None (Some 9%Q) None) = Int q' /\
    (40 <= q <= q')%Z /\ (q' <= 100)%Z.
Proof.
  apply (@calculateQualityOfLife_effectiveness
           (More.surgicalData (Some 7) (Some 45))
           (More.chronicFull (Some 3) (Some "moderate"%string)
              (Some "good"%string))
           (Examples.side None (Some 6) None)
           (Examples.side None (Some 9) None) 6 9);
    try reflexivity; lra.
Defined.

(** X6.  In every model the transformation returns, the three delay values
    are numbers together or [NaN] together.  When the lifestyle impact and
    the disease stability of treatment A name no inherited member they are
    integers, the immediate value between 40 and 100, the one-month value
    between 50 and 90 and the three-month value between 40 and 80; when one
    of the two names an inherited member all three are [NaN]. *)
Theorem delay_impact_bounds (d : Raw.payload) (ag : Raw.agents_t)
  (ca cb : Raw.comparison_side) :
  structured d ag ca cb ->
  exists m,
    transformBackendResponse (Some d) = Return m /\
    (plain_chronic (chronicA ag) ->
     int_in 40 100 (Model.qol_immediate (Model.delay_impact m)) /\
     int_in 50 90 (Model.qol_1month (Model.delay_impact m)) /\
     int_in 40 80 (Model.qol_3months (Model.delay_impact m))) /\
    (inherited (show (Raw.lifestyle_impact (chronicA ag))) = true \/
     inherited (show (Raw.disease_stability (chronicA ag))) = true ->
     Model.qol_immediate (Model.delay_impact m) = NaN /\
     Model.qol_1month (Model.delay_impact m) = NaN /\
     Model.qol_3months (Model.delay_impact m) = NaN).
Proof.
  intros Hs.
  destruct (transform_structured Hs)
    as (m & Hm & Ha & _ & _ & _ & _ & _ & _ & Hq0 & Hq1 & Hq3 & _).
  exists m. split; [exact Hm|].
  rewrite Hq1, Hq3, Hq0, Ha. cbn [Model.quality_of_life outcomeOf].
  split.
  - intros Hp.
    destruct (@calculateQualityOfLife_plain_bounds (surgicalA ag)
                (chronicA ag) ca Hp) as (q & -> & Hq).
    destruct (delay_values_Int q) as [-> ->].
    repeat split; eexists; (split; [reflexivity | lia]).
  - intros Hk. unfold calculateQualityOfLife.
    rewrite (@qol_raw_inherited (surgicalA ag) (chronicA ag) ca Hk).
    repeat split.
Qed.

Lemma delay_impact_bounds_witness :
  exists m,
    transformBackendResponse (Some More.reportingPayload) = Return m /\
    int_in 50 90 (Model.qol_1month (Model.delay_impact m)).
Proof.
  destruct (@delay_impact_bounds More.reportingPayload More.reportingAgents
              Examples.documentedSide More.secondSide)
    as (m & Hm & Hb & _).
  - split; [reflexivity|]. eexists. repeat split.
  - exists m. split; [exact Hm|].
    apply Hb. split; reflexivity.
Defined.

End Monotonicity.

(* ------------------------------------------------------------------ *)
(** ** The course of the timeline *)

Section TimelineCourse.

Local Open Scope Q_scope.

Variables surgical chronic risk : Raw.agent_data.
Variable comparison : Raw.comparison_side.

Lemma StronglySorted_map_mono (f : Z -> Z) (l : list Z) :
  (forall i j, In i l -> In j l -> (i <= j)%Z -> (f i <= f j)%Z) ->
  StronglySorted Z.le l -> StronglySorted Z.le (map f l).
Proof.
  intros Hf Hl. induction Hl as [|a l Hl IH Ha]; cbn [map]; constructor.
  - apply IH. intros i j Hi Hj. apply Hf; now right.
  - apply Forall_map. rewrite Forall_forall in *. intros j Hj.
    apply Hf; [now left | now right | now apply Ha].
Qed.

Lemma timelineMonths_sorted : StronglySorted Z.le timelineMonths.
Proof.
  unfold timelineMonths.
  repeat (constructor; [|repeat (constructor; [lia|]); constructor]).
  constructor.
Qed.

Lemma timelineMonths_nonneg (i : Z) : In i timelineMonths -> (0 <= i)%Z.
Proof.
  unfold timelineMonths. cbn [In]. lia.
Qed.

Lemma timelinePoint_risk_mono (i j : Z) :
  (forall v, Raw.invasiveness_score surgical = Some v -> 0 <= v) ->
  (i <= j)%Z ->
  (Model.risk (timelinePoint surgical chronic risk comparison i) <=
   Model.risk (timelinePoint surgical chronic risk comparison j))%Z.
Proof.
  intros Hv Hij. unfold timelinePoint. cbn [Model.risk]. cbn zeta.
  assert (Hk : 0 <= or_num (Raw.invasiveness_score surgical) 5 * 0.5).
  { unfold or_num. destruct (Raw.invasiveness_score surgical) as [v|] eqn:E.
    - specialize (Hv v eq_refl). destruct (Qeq_bool v 0); lra.
    - lra. }
  apply Z.max_le_compat_l, Math_round_mono, Q.min_le_compat_l.
  apply Qplus_le_r, Qmult_le_compat_r; [|exact Hk].
  now rewrite <- Zle_Qle.
Qed.

(** X7.  When [invasiveness_score] is absent or not negative, the risk
    never falls from one point of the timeline to a later one. *)
Theorem generateTimelineData_risk_sorted :
  (forall v, Raw.invasiveness_score surgical = Some v -> 0 <= v) ->
  StronglySorted Z.le
    (map Model.risk (generateTimelineData surgical chronic risk comparison)).
Proof.
  intros Hv. rewrite generateTimelineData_points, map_map.
  apply StronglySorted_map_mono; [|apply timelineMonths_sorted].
  intros i j _ _. now apply timelinePoint_risk_mono.
Qed.

Lemma Qdiv_le_mono (x y d : Q) : 0 < d -> x <= y -> x / d <= y / d.
Proof.
  intros Hd Hxy. unfold Qdiv. apply Qmult_le_compat_r; [exact Hxy|].
  apply Qlt_le_weak, Qinv_lt_0_compat, Hd.
Qed.

(** The score before rounding and clamping never falls with the month. *)
Lemma timeline_raw_score_mono (e sf : Q) (rm i j : Z) :
  0 <= e -> 0 <= sf -> (0 <= i <= j)%Z ->
  (if (i <? rm)%Z
   then e * 10 * (0.6 + (inject_Z i / inject_Z rm) * 0.4)
   else e * 10 + sf * inject_Z (i - rm)) <=
  (if (j <? rm)%Z
   then e * 10 * (0.6 + (inject_Z j / inject_Z rm) * 0.4)
   else e * 10 + sf * inject_Z (j - rm)).
Proof.
  intros He Hsf [Hi Hij].
  destruct (Z.ltb_spec i rm) as [Hir | Hir];
    destruct (Z.ltb_spec j rm) as [Hjr | Hjr]; try lia.
  - assert (Hrm : 0 < inject_Z rm)
      by (change 0 with (inject_Z 0); rewrite <- Zlt_Qlt; lia).
    assert (Hd : inject_Z i / inject_Z rm <= inject_Z j / inject_Z rm)
      by (apply Qdiv_le_mono; [exact Hrm | rewrite <- Zle_Qle; lia]).
    revert Hd. generalize (inject_Z i / inject_Z rm).
    generalize (inject_Z j / inject_Z rm). intros b a Hd. nra.
  - assert (Hrm : 0 < inject_Z rm)
      by (change 0 with (inject_Z 0); rewrite <- Zlt_Qlt; lia).
    assert (Hd : inject_Z i / inject_Z rm <= inject_Z rm / inject_Z rm)
      by (apply Qdiv_le_mono; [exact Hrm | rewrite <- Zle_Qle; lia]).
    assert (H1 : inject_Z rm / inject_Z rm == 1) by (field; lra).
    rewrite H1 in Hd.
    assert (Hs : 0 <= sf * inject_Z (j - rm)).
    { apply Qmult_le_0_compat; [exact Hsf|].
      change 0 with (inject_Z 0). rewrite <- Zle_Qle. lia. }
    revert Hd Hs. generalize (inject_Z i / inject_Z rm).
    generalize (sf * inject_Z (j - rm)). intros t a Hd Hs. nra.
  - apply Qplus_le_r.
    assert (Hd : inject_Z (i - rm) <= inject_Z (j - rm))
      by (rewrite <- Zle_Qle; lia).
    revert Hd. generalize (inject_Z (i - rm)). generalize (inject_Z (j - rm)).
    intros b a Hd. nra.
Qed.

End TimelineCourse.

Section TimelineScores.

Local Open Scope Q_scope.

Variables surgical chronic risk : Raw.agent_data.
Variable comparison : Raw.comparison_side.

(** X8.  When [effectiveness_score] is present and not negative and the
    disease stability names no inherited member, every score of the
    timeline is an integer and the scores never fall from one point to a
    later one. *)
Theorem generateTimelineData_score_sorted (e : Q) :
  Raw.effectiveness_score comparison = Some e -> 0 <= e ->
  plain_key (Raw.disease_stability chronic) ->
  exists zs,
    map Model.score (generateTimelineData surgical chronic risk comparison) =
      map Int zs /\
    StronglySorted Z.le zs.
Proof.
  intros He Hpos Hk. rewrite generateTimelineData_points.
  set (rm := Math_ceil (or_num (Raw.recovery_time_days surgical) 30 / 30)).
  destruct (@stabilityFactor_lookup _
              (@plain_key_or_str _ "fair"%string Hk eq_refl))
    as (sf & Hsf & Hsfpos).
  set (zf := fun i : Z =>
         Z.max 40 (Z.min 100 (Math_round
           (if (i <? rm)%Z
            then e * 10 * (0.6 + (inject_Z i / inject_Z rm) * 0.4)
            else e * 10 + sf * inject_Z (i - rm))))).
  exists (map zf timelineMonths). split.
  - rewrite !map_map. apply map_ext. intros i.
    unfold timelinePoint. cbn [Model.score]. cbn zeta.
    rewrite He, Hsf. cbn [to_number num_mul]. fold rm. unfold zf.
    destruct (i <? rm)%Z; cbn [num_mul num_add num_round];
      now rewrite num_min_Int, num_max_Int.
  - apply StronglySorted_map_mono; [|apply timelineMonths_sorted].
    intros i j Hi _ Hij. unfold zf. apply clamp_round_mono.
    apply timeline_raw_score_mono; [exact Hpos | | ].
    + now apply Qlt_le_weak.
    + apply timelineMonths_nonneg in Hi. lia.
Qed.

(** X9.  A disease stability of ['poor'] gives the timeline of ['fair'] and
    of a missing stability: its table entry 0.0 is falsy and is replaced by
    the default factor 0.5. *)
Theorem generateTimelineData_poor_as_fair (chronic' : Raw.agent_data) :
  Raw.disease_stability chronic = Some "poor"%string ->
  Raw.disease_stability chronic' = Some "fair"%string \/
  Raw.disease_stability chronic' = None ->
  generateTimelineData surgical chronic risk comparison =
  generateTimelineData surgical chronic' risk comparison.
Proof.
  intros H H'. rewrite !generateTimelineData_points.
  apply map_ext. intros i. unfold timelinePoint. cbn zeta.
  rewrite H. destruct H' as [-> | ->]; reflexivity.
Qed.

End TimelineScores.

Lemma generateTimelineData_risk_sorted_witness :
  StronglySorted Z.le
    (map Model.risk
       (generateTimelineData Raw.empty Raw.empty Raw.empty
          Examples.documentedSide)).
Proof.
  apply generateTimelineData_risk_sorted. intros v H. discriminate H.
Defined.

Lemma generateTimelineData_score_sorted_witness :
  exists zs,
    map Model.score
      (generateTimelineData (More.surgicalData (Some 7) (Some 45))
         (More.chronicData (Some "good"%string)) Raw.empty
         Examples.documentedSide) = map Int zs /\
    StronglySorted Z.le zs.
Proof.
  apply (@generateTimelineData_score_sorted
           (More.surgicalData (Some 7) (Some 45))
           (More.chronicData (Some "good"%string)) Raw.empty
           Examples.documentedSide 8.2%Q); [reflexivity| |reflexivity].
  vm_compute. discriminate.
Defined.

Lemma generateTimelineData_poor_as_fair_witness :
  generateTimelineData Raw.empty (More.chronicData (Some "poor"%string))
    Raw.empty Examples.documentedSide =
  generateTimelineData Raw.empty (More.chronicData (Some "fair"%string))
    Raw.empty Examples.documentedSide.
Proof.
  apply generateTimelineData_poor_as_fair; [reflexivity | left; reflexivity].
Defined.

(* ------------------------------------------------------------------ *)
(** ** Uncertainty *)

Section Uncertainty.

Local Open Scope string_scope.

(** X10.  The uncertainty is always Low, Medium or High.  It is Low
    whenever the safety status is exactly ['safe'] and neither increment
    applies (probability at most 0.25, level neither high nor very-high);
    it is High whenever the status is neither ['safe'] nor ['caution']
    (absent, or in another letter case) and neither decrement applies
    (probability at least 0.10, level not low). *)
Theorem calculateUncertainty_extremes (risk safety : Raw.agent_data) :
  is_level (calculateUncertainty risk safety) /\
  (Raw.safety_status safety = Some "safe" ->
   (or_num (Raw.complication_probability risk) 0.15 <= 0.25)%Q ->
   toLowerCase (or_str (Raw.readmission_risk risk) "") <> "high" ->
   toLowerCase (or_str (Raw.readmission_risk risk) "") <> "very-high" ->
   calculateUncertainty risk safety = "Low") /\
  (Raw.safety_status safety <> Some "safe" ->
   Raw.safety_status safety <> Some "caution" ->
   (0.10 <= or_num (Raw.complication_probability risk) 0.15)%Q ->
   toLowerCase (or_str (Raw.readmission_risk risk) "") <> "low" ->
   calculateUncertainty risk safety = "High").
Proof.
  split; [apply calculateUncertainty_level|]. split.
  - intros Hs Hp Hh Hv. unfold calculateUncertainty. cbn zeta.
    rewrite Hs. cbn [is_str String.eqb Ascii.eqb Bool.eqb].
    apply String.eqb_neq in Hh, Hv. rewrite Hh, Hv. cbn [orb].
    destruct (Qlt_bool 0.25 _) eqn:E.
    { apply Qlt_bool_iff in E. exfalso. lra. }
    destruct (Qlt_bool _ 0.10); destruct (_ =? "low"); reflexivity.
  - intros Hs Hc Hp Hl. unfold calculateUncertainty. cbn zeta.
    assert (E1 : is_str (Raw.safety_status safety) "safe" = false).
    { destruct (Raw.safety_status safety) as [v|]; [|reflexivity].
      cbn [is_str]. apply String.eqb_neq. congruence. }
    assert (E2 : is_str (Raw.safety_status safety) "caution" = false).
    { destruct (Raw.safety_status safety) as [v|]; [|reflexivity].
      cbn [is_str]. apply String.eqb_neq. congruence. }
    rewrite E1, E2. apply String.eqb_neq in Hl. rewrite Hl.
    destruct (Qlt_bool _ 0.10) eqn:E.
    { apply Qlt_bool_iff in E. exfalso. lra. }
    destruct (Qlt_bool 0.25 _); destruct (_ || _); reflexivity.
Qed.

End Uncertainty.

(* ------------------------------------------------------------------ *)
(** ** The model as the components show it *)

Section Display.

Local Open Scope string_scope.

Import Components.

Lemma recognised_nonempty (s : string) : More.recognised s -> s <> "".
Proof.
  intros H ->. cbn in H. destruct H as [H | [H | [H | H]]]; discriminate H.
Qed.

(** A level the tables know names no inherited member. *)
Lemma recognised_plain (s : string) :
  More.recognised s -> inherited (toLowerCase s) = false.
Proof.
  intros [H | [H | [H | H]]]; rewrite H; reflexivity.
Qed.

(** X11.  For a readmission level the tables know (in any letter case) the
    outcome card and the risk heatmap agree: the label is Low, Medium or
    High and the heatmap band of the readmission value is Low, Moderate or
    High respectively.  For an absent level the heatmap band is Moderate
    (value 50), whatever the label the threshold gives. *)
Theorem readmission_label_and_band (r : Raw.agent_data)
  (c : Raw.comparison_side) :
  (forall s, Raw.readmission_risk r = Some s -> More.recognised s ->
     let label := Model.readmission_risk
                    (outcomeOf Raw.empty Raw.empty r Raw.empty c) in
     let band := RiskHeatmap.level
                   (RiskHeatmap.getRiskLevel
                      (score_number
                         (calculateRiskScore (Some r) "readmission"))) in
     (label = Own "Low" /\ band = "Low") \/
     (label = Own "Medium" /\ band = "Moderate") \/
     (label = Own "High" /\ band = "High")) /\
  (Raw.readmission_risk r = None ->
   calculateRiskScore (Some r) "readmission" = Own 50%Z /\
   RiskHeatmap.level
     (RiskHeatmap.getRiskLevel
        (score_number (calculateRiskScore (Some r) "readmission"))) =
     "Moderate").
Proof.
  split.
  - intros s Hs Hrec. cbn zeta. cbn [outcomeOf Model.readmission_risk].
    assert (Hp : plain_level (Raw.readmission_risk r)).
    { rewrite Hs. exact (recognised_plain Hrec). }
    rewrite (@calculateRiskScore_readmission r Hp), Hs.
    rewrite (readmission_direct _ (recognised_nonempty Hrec)
               (recognised_plain Hrec)).
    unfold directMapping, readmissionScore. cbn zeta.
    destruct Hrec as [H | [H | [H | H]]]; rewrite H;
      cbn [String.eqb Ascii.eqb Bool.eqb]; vm_compute; tauto.
  - intros H.
    assert (Hp : plain_level (Raw.readmission_risk r))
      by (rewrite H; reflexivity).
    rewrite (@calculateRiskScore_readmission r Hp), H.
    split; reflexivity.
Qed.

Lemma readmission_label_and_band_witness :
  Model.readmission_risk
    (outcomeOf Raw.empty Raw.empty
       (Examples.riskData None (Some "Very-High")) Raw.empty
       Examples.bareSide) = Own "High" /\
  RiskHeatmap.level
    (RiskHeatmap.getRiskLevel
       (score_number
          (calculateRiskScore
             (Some (Examples.riskData None (Some "Very-High")))
             "readmission"))) = "High".
Proof.
  destruct (proj1 (readmission_label_and_band
                     (Examples.riskData None (Some "Very-High"))
                     Examples.bareSide) "Very-High" eq_refl)
    as [[H _] | [[H _] | H]].
  - right; right; right. reflexivity.
  - discriminate H.
  - discriminate H.
  - exact H.
Defined.

(** X12.  A comparison side without [patient_burden_score] has the
    deterioration value [NaN], which the heatmap shows in its lowest band:
    level Low, green. *)
Theorem deterioration_absent_band (c : Raw.comparison_side) :
  Raw.patient_burden_score c = None ->
  deteriorationScore c = NaN /\
  RiskHeatmap.getRiskLevel (deteriorationScore c) =
    {| RiskHeatmap.level := "Low";
       RiskHeatmap.color := "bg-green-500";
       RiskHeatmap.borderColor := "border-green-500" |}.
Proof.
  intros H. unfold deteriorationScore. rewrite H. split; reflexivity.
Qed.

Lemma deterioration_absent_band_witness :
  deteriorationScore Examples.bareSide = NaN /\
  RiskHeatmap.getRiskLevel (deteriorationScore Examples.bareSide) =
    {| RiskHeatmap.level := "Low";
       RiskHeatmap.color := "bg-green-500";
       RiskHeatmap.borderColor := "border-green-500" |}.
Proof.
  apply deterioration_absent_band. reflexivity.
Defined.

Lemma or_int_nonzero (z d : Z) : z <> 0%Z -> or_int (Some z) d = z.
Proof.
  intros H. cbn [or_int]. apply Z.eqb_neq in H. now rewrite H.
Qed.

(** X13.  On every point of a generated timeline the node of the
    horizontal timeline is coloured by the point's own risk (the fallback
    30 of [step.risk || 30] is never used), fill and border in the same
    hue.  The number shown is the point's score when [effectiveness_score]
    is present and the disease stability names no inherited member; it is 0
    on every point when [effectiveness_score] is absent, and on every point
    past the recovery phase when the disease stability names an inherited
    member (the score is [NaN] there). *)
Theorem horizontal_timeline_display (surgical chronic risk : Raw.agent_data)
  (comparison : Raw.comparison_side) :
  Forall
    (fun step =>
       HorizontalTimeline.riskScore step = Model.risk step /\
       exists hue,
         HorizontalTimeline.getRiskColor (HorizontalTimeline.riskScore step) =
           "bg-" ++ hue /\
         HorizontalTimeline.getRiskBorder (HorizontalTimeline.riskScore step) =
           "border-" ++ hue)
    (generateTimelineData surgical chronic risk comparison) /\
  (effectiveness_ok comparison ->
   plain_key (Raw.disease_stability chronic) ->
   Forall (fun step => HorizontalTimeline.displayedScore step = Model.score step)
     (generateTimelineData surgical chronic risk comparison)) /\
  (Raw.effectiveness_score comparison = None ->
   Forall (fun step => HorizontalTimeline.displayedScore step = Int 0)
     (generateTimelineData surgical chronic risk comparison)) /\
  (inherited (or_str (Raw.disease_stability chronic) "fair") = true ->
   Forall
     (fun step =>
        (Math_ceil (or_num (Raw.recovery_time_days surgical) 30 / 30) <=
         Model.month step)%Z ->
        Model.score step = NaN /\
        HorizontalTimeline.displayedScore step = Int 0)
     (generateTimelineData surgical chronic risk comparison)).
Proof.
  rewrite generateTimelineData_points.
  split; [|split; [|split]].
  - apply Forall_map, Forall_forall. intros i _.
    pose proof (timelinePoint_risk surgical chronic risk comparison i) as Hr.
    split.
    + unfold HorizontalTimeline.riskScore. apply or_int_nonzero. lia.
    + unfold HorizontalTimeline.getRiskBorder, HorizontalTimeline.getRiskColor.
      destruct (_ <? 40)%Z; [now exists "green-500"|].
      destruct (_ <? 70)%Z; [now exists "yellow-500" | now exists "red-500"].
  - intros He Hk. apply Forall_map, Forall_forall. intros i _.
    destruct (@timelinePoint_score surgical chronic risk comparison i He Hk)
      as (z & Hz & Hb).
    unfold HorizontalTimeline.displayedScore. rewrite Hz. unfold Int.
    destruct (Qeq_bool (inject_Z z) 0) eqn:E; [|reflexivity].
    apply Qeq_bool_eq in E. unfold Qeq in E. cbn in E. lia.
  - intros He. apply Forall_map, Forall_forall. intros i _.
    unfold HorizontalTimeline.displayedScore.
    now rewrite (timelinePoint_score_NaN surgical chronic risk _ i He).
  - intros Hk. apply Forall_map, Forall_forall. intros i _ Hi.
    assert (E : Model.score (timelinePoint surgical chronic risk comparison i)
                = NaN).
    { apply timelinePoint_score_inherited; [exact Hk | exact Hi]. }
    split; [exact E|].
    unfold HorizontalTimeline.displayedScore. now rewrite E.
Qed.

End Display.

(* ------------------------------------------------------------------ *)
(** ** The lines taken from the final notes *)

Section Notes.

Local Open Scope string_scope.

Lemma includes_cons (c : ascii) (s needle : string) :
  includes s needle = true -> includes (String c s) needle = true.
Proof.
  intros H. cbn [includes]. rewrite H. apply orb_true_r.
Qed.

Lemma includes_trimStart (s needle : string) :
  includes (trimStart s) needle = true -> includes s needle = true.
Proof.
  induction s as [|c s IH]; cbn [trimStart]; [auto|].
  destruct (is_space c); [|auto].
  intros H. apply includes_cons, IH, H.
Qed.

Lemma prefix_empty (needle : string) :
  prefix needle "" = true -> needle = "".
Proof.
  destruct needle; [reflexivity | discriminate].
Qed.

Lemma prefix_trimEnd (s needle : string) :
  prefix needle (trimEnd s) = true -> prefix needle s = true.
Proof.
  revert needle. induction s as [|c s IH]; intros needle; cbn [trimEnd]; [auto|].
  destruct (is_space c && (trimEnd s =? "")).
  - intros H. apply prefix_empty in H. now subst.
  - destruct needle as [|a needle]; [reflexivity|]. cbn [prefix].
    destruct (ascii_dec a c); [apply IH | auto].
Qed.

Lemma includes_trimEnd (s needle : string) :
  includes (trimEnd s) needle = true -> includes s needle = true.
Proof.
  induction s as [|c s IH]; cbn [trimEnd]; [auto|].
  destruct (is_space c && (trimEnd s =? "")) eqn:E.
  - cbn [includes]. rewrite orb_false_r. intros H.
    apply prefix_empty in H. subst. reflexivity.
  - intros H. cbn [includes] in H. apply orb_true_iff in H.
    destruct H as [H | H].
    + cbn [includes]. apply orb_true_iff. left.
      apply prefix_trimEnd. cbn [trimEnd]. now rewrite E.
    + apply includes_cons, IH, H.
Qed.

Lemma includes_trim (s needle : string) :
  includes (trim s) needle = true -> includes s needle = true.
Proof.
  intros H. apply includes_trimStart, includes_trimEnd, H.
Qed.

Lemma substring_all (s : string) : substring 0 (String.length s) s = s.
Proof.
  induction s as [|c s IH]; cbn [substring String.length]; [reflexivity|].
  now rewrite IH.
Qed.

Lemma includes_stripBullet (line needle : string) :
  includes (stripBullet line) needle = true -> includes line needle = true.
Proof.
  unfold stripBullet. destruct line as [|c rest]; [auto|].
  destruct (Ascii.eqb c "-" || Ascii.eqb c "*").
  { intros H. apply includes_cons, includes_trimStart, H. }
  destruct (prefix bullet (String c rest)) eqn:E; [|auto].
  destruct rest as [|c2 [|c3 rest]];
    try (exfalso; unfold bullet in E; cbn [prefix] in E;
         repeat match type of E with
                | context [ascii_dec ?a ?b] => destruct (ascii_dec a b)
                end;
         discriminate E).
  cbn [String.length Nat.sub substring]. rewrite Nat.sub_0_r, substring_all.
  intros H. apply includes_cons, includes_cons, includes_cons.
  apply includes_trimStart, H.
Qed.

Lemma Forall_filter_sub {A} (P : A -> Prop) (f : A -> bool) (l : list A) :
  Forall P l -> Forall P (filter f l).
Proof.
  intros H. induction H as [|x l Hx Hl IH]; cbn [filter]; [constructor|].
  destruct (f x); [constructor|]; assumption.
Qed.

Lemma keepLine_markers (line : string) :
  keepLine line = true ->
  includes line "====" = false /\ includes line "CLINICAL" = false /\
  includes line "WARNING" = false.
Proof.
  unfold keepLine. rewrite !andb_true_iff, !negb_true_iff. tauto.
Qed.

(** The words a line of the notes must not contain. *)
Lemma extracted_line_markers (line needle : string) :
  includes line needle = false ->
  includes (trim (stripBullet line)) needle = false.
Proof.
  intros H. destruct (includes (trim (stripBullet line)) needle) eqn:E;
    [|reflexivity].
  apply includes_trim, includes_stripBullet in E. congruence.
Qed.

(** X14.  [extractReasoningPoints] returns at most three lines, none of
    them empty and none containing "====", "CLINICAL" or "WARNING"; absent
    or empty notes give no line. *)
Theorem extractReasoningPoints_lines (finalNotes : option string) :
  (List.length (extractReasoningPoints finalNotes) <= 3)%nat /\
  Forall
    (fun l => l <> "" /\ includes l "====" = false /\
              includes l "CLINICAL" = false /\ includes l "WARNING" = false)
    (extractReasoningPoints finalNotes) /\
  (truthy finalNotes = false -> extractReasoningPoints finalNotes = []).
Proof.
  unfold extractReasoningPoints.
  destruct (truthy finalNotes); cbn [negb];
    [|split; [cbn; lia | split; [constructor | reflexivity]]].
  cbn zeta. split; [|split; [|discriminate]].
  - eapply Nat.le_trans; [apply filter_length_le|].
    rewrite length_map. apply firstn_le_length.
  - apply Forall_and.
    + eapply Forall_impl; [|apply Forall_filter_keep].
      intros l. apply nonempty_length.
    + apply Forall_filter_sub, Forall_map.
      apply Forall_firstn_keep.
      eapply Forall_impl; [|apply Forall_filter_keep].
      intros line Hk. apply keepLine_markers in Hk.
      destruct Hk as (H1 & H2 & H3).
      repeat split; now apply extracted_line_markers.
Qed.

Lemma filter_idempotent {A} (f : A -> bool) (l : list A) :
  filter f (filter f l) = filter f l.
Proof.
  induction l as [|x l IH]; cbn [filter]; [reflexivity|].
  destruct (f x) eqn:E; [|exact IH]. cbn [filter]. now rewrite E, IH.
Qed.

Lemma extractReasoningPoints_filtered (finalNotes : option string) :
  filter (fun r => (0 <? String.length r)%nat)
    (extractReasoningPoints finalNotes) =
  extractReasoningPoints finalNotes.
Proof.
  unfold extractReasoningPoints.
  destruct (negb (truthy finalNotes)); [reflexivity|].
  cbn zeta. apply filter_idempotent.
Qed.

Lemma safetyWarning_flagged (label : string) (safety : Raw.agent_data)
  (l : list string) :
  Raw.identified_contraindications safety = Some l -> l <> [] ->
  safetyWarning label safety =
    [label ++ " Safety: " ++ join "; " (slice0 2 l)].
Proof.
  intros H Hl. unfold safetyWarning. rewrite H.
  destruct l; [contradiction | reflexivity].
Qed.

(** X15.  When both safety agents list at least one contraindication, the
    reasoning list is the two summary lines, the safety line of treatment A
    (its first two contraindications joined by "; "), the safety line of
    treatment B, and then at most one line of the final notes. *)
Theorem reasoning_with_warnings (d : Raw.payload) (ag : Raw.agents_t)
  (ca cb : Raw.comparison_side) (la lb : list string) :
  structured d ag ca cb ->
  Raw.identified_contraindications (safetyA ag) = Some la -> la <> [] ->
  Raw.identified_contraindications (safetyB ag) = Some lb -> lb <> [] ->
  exists m,
    transformBackendResponse (Some d) = Return m /\
    Model.reasoning (Model.explanation m) =
      (summaryLine "Treatment A" ca ::
       summaryLine "Treatment B" cb ::
       ("Treatment A Safety: " ++ join "; " (slice0 2 la))%string ::
       ("Treatment B Safety: " ++ join "; " (slice0 2 lb))%string ::
       slice0 1 (extractReasoningPoints (Raw.final_notes d)))%list.
Proof.
  intros Hs Ha Hla Hb Hlb.
  destruct (transform_structured Hs)
    as (m & Hm & _ & _ & _ & _ & _ & _ & _ & _ & _ & _ & Hr).
  exists m. split; [exact Hm|].
  rewrite Hr. unfold reasoningCandidates.
  rewrite (safetyWarning_flagged _ _ Ha Hla), (safetyWarning_flagged _ _ Hb Hlb).
  cbn [app]. rewrite reasoning_cut by apply summaryLine_nonempty.
  cbn [filter append String.length Nat.ltb Nat.leb].
  rewrite extractReasoningPoints_filtered. reflexivity.
Qed.

Lemma reasoning_with_warnings_witness :
  exists m,
    transformBackendResponse (Some More.flaggedPayload) = Return m /\
    Model.reasoning (Model.explanation m) =
      [ "Treatment A (favorable cost-benefit): Lower procedural risk";
        "Treatment B (favorable cost-benefit): Lower procedural risk";
        "Treatment A Safety: Renal impairment; Anticoagulation";
        "Treatment B Safety: Drug interaction";
        "Treatment A offers faster symptom relief" ].
Proof.
  destruct (@reasoning_with_warnings More.flaggedPayload
              (More.agentsWithSafety
                 (More.safetyFlags (Some "caution")
                    (Some ["Renal impairment"; "Anticoagulation"; "Age"]))
                 (More.safetyFlags (Some "safe") (Some ["Drug interaction"])))
              Examples.documentedSide Examples.documentedSide
              ["Renal impairment"; "Anticoagulation"; "Age"]
              ["Drug interaction"]) as (m & Hm & Hr).
  - split; [reflexivity|]. eexists. repeat split.
  - reflexivity.
  - discriminate.
  - reflexivity.
  - discriminate.
  - exists m. split; [exact Hm|]. rewrite Hr. vm_compute. reflexivity.
Defined.

End Notes.

(* ------------------------------------------------------------------ *)
(** ** Risk increases and outcome badges *)

Section Increases.

Local Open Scope string_scope.

Import Components.

Lemma transform_risk_increases (d : Raw.payload) (ag : Raw.agents_t)
  (ca cb : Raw.comparison_side) :
  structured d ag ca cb ->
  exists m,
    transformBackendResponse (Some d) = Return m /\
    Model.outcome_a m =
      outcomeOf (surgicalA ag) (chronicA ag) (riskA ag) (safetyA ag) ca /\
    Model.outcome_b m =
      outcomeOf (surgicalB ag) (chronicB ag) (riskB ag) (safetyB ag) cb /\
    Model.risk_increases (Model.delay_impact m) =
      [ {| Model.category := "Readmission";
           Model.change :=
             num_abs
               (num_sub
                  (score_number
                     (calculateRiskScore (Some (riskA ag)) "readmission"))
                  (score_number
                     (calculateRiskScore (Some (riskB ag)) "readmission"))) |};
        {| Model.category := "Complications";
           Model.change :=
             num_abs
               (num_sub
                  (score_number
                     (calculateRiskScore (Some (riskA ag)) "complications"))
                  (score_number
                     (calculateRiskScore (Some (riskB ag)) "complications"))) |};
        {| Model.category := "Deterioration";
           Model.change :=
             num_abs (num_sub (deteriorationScore ca) (deteriorationScore cb)) |} ].
Proof.
  intros (Hag & c & Hc & Ha & Hb).
  unfold transformBackendResponse. rewrite Hag, Hc. cbn zeta.
  rewrite Ha, Hb. cbn [deref bind].
  eexists. split; [reflexivity|]. repeat split.
Qed.

Lemma readmissionScore_values (level : option string) :
  (25 <= readmissionScore level <= 90)%Z.
Proof.
  unfold readmissionScore. destruct level as [s|]; [|lia]. cbn zeta.
  table_cases (toLowerCase s) ltac:(lia).
Qed.

Lemma num_abs_sub_Int (x y : Z) :
  num_abs (num_sub (Int x) (Int y)) = Int (Z.abs (x - y)).
Proof.
  unfold Int, inject_Z. cbn [num_sub num_abs].
  unfold Qminus, Qplus, Qopp, Qabs. cbn [Qnum Qden Pos.mul].
  do 2 f_equal. lia.
Qed.

(** X16.  In every returned model [risk_increases] lists Readmission,
    Complications and Deterioration in that order.  The readmission change
    is an integer between 0 and 65 when neither readmission level names an
    inherited member, and [NaN] as soon as one does; the complications
    change is a non-negative integer; the deterioration change is the
    absolute difference of the two rounded burden values when both burden
    scores are present, and [NaN] as soon as one is absent. *)
Theorem risk_increases_shape (d : Raw.payload) (ag : Raw.agents_t)
  (ca cb : Raw.comparison_side) :
  structured d ag ca cb ->
  exists m cr zc cd,
    transformBackendResponse (Some d) = Return m /\
    map Model.category (Model.risk_increases (Model.delay_impact m)) =
      ["Readmission"; "Complications"; "Deterioration"] /\
    map Model.change (Model.risk_increases (Model.delay_impact m)) =
      [cr; Int zc; cd] /\
    (plain_level (Raw.readmission_risk (riskA ag)) ->
     plain_level (Raw.readmission_risk (riskB ag)) ->
     exists zr, cr = Int zr /\ (0 <= zr <= 65)%Z) /\
    (inherited
       (show (option_map toLowerCase (Raw.readmission_risk (riskA ag)))) =
       true \/
     inherited
       (show (option_map toLowerCase (Raw.readmission_risk (riskB ag)))) =
       true -> cr = NaN) /\
    (0 <= zc)%Z /\
    (forall a b, Raw.patient_burden_score ca = Some a ->
                 Raw.patient_burden_score cb = Some b ->
       cd = Int (Z.abs (Math_round (a * 10) - Math_round (b * 10)))) /\
    (Raw.patient_burden_score ca = None \/
     Raw.patient_burden_score cb = None -> cd = NaN).
Proof.
  intros Hs.
  destruct (transform_risk_increases Hs) as (m & Hm & _ & _ & Hr).
  exists m. do 3 eexists. split; [exact Hm|]. rewrite Hr.
  cbn [map Model.category Model.change].
  split; [reflexivity|].
  split.
  { rewrite !calculateRiskScore_complications. cbn [score_number].
    rewrite num_abs_sub_Int. reflexivity. }
  split; [|split; [|split; [|split]]].
  - intros Ha Hb.
    rewrite (@calculateRiskScore_readmission _ Ha),
      (@calculateRiskScore_readmission _ Hb).
    cbn [score_number]. rewrite num_abs_sub_Int.
    eexists. split; [reflexivity|].
    pose proof (readmissionScore_values (Raw.readmission_risk (riskA ag))).
    pose proof (readmissionScore_values (Raw.readmission_risk (riskB ag))).
    lia.
  - intros [H | H]; rewrite (@calculateRiskScore_inherited _ H);
      cbn [score_number num_sub num_abs]; [reflexivity|].
    now destruct (score_number _).
  - lia.
  - intros a b Ha Hb.
    rewrite (deteriorationScore_present _ Ha), (deteriorationScore_present _ Hb).
    apply num_abs_sub_Int.
  - unfold deteriorationScore. intros [H | H]; rewrite H.
    + reflexivity.
    + cbn [to_number num_mul num_round].
      now destruct (num_round _).
Qed.

Lemma risk_increases_shape_witness :
  exists m,
    transformBackendResponse (Some More.reportingPayload) = Return m /\
    map Model.change (Model.risk_increases (Model.delay_impact m)) =
      [Int 50; Int 12; Int 30].
Proof.
  destruct (@risk_increases_shape More.reportingPayload More.reportingAgents
              Examples.documentedSide More.secondSide)
    as (m & cr & zc & cd & Hm & _ & Hc & _).
  - split; [reflexivity|]. eexists. repeat split.
  - exists m. split; [exact Hm|].
    assert (E : transformBackendResponse (Some More.reportingPayload) =
                Return m) by exact Hm.
    vm_compute in E. injection E as <-. reflexivity.
Defined.

Lemma getRiskColor_level (s : string) :
  is_level s ->
  exists c,
    OutcomeCards.getRiskColor (Some (Own s)) = Return c /\
    c <> "text-slate-600 dark:text-slate-400 border-slate-500".
Proof.
  intros [-> | [-> | ->]]; eexists; (split; [reflexivity|]);
    vm_compute; discriminate.
Qed.

Lemma getRiskColor_label (p : property string) :
  label_is_level p ->
  exists c,
    OutcomeCards.getRiskColor (Some p) = Return c /\
    c <> "text-slate-600 dark:text-slate-400 border-slate-500".
Proof.
  intros (s & -> & Hs). now apply getRiskColor_level.
Qed.

(** X17.  On the outcome cards of every returned model the uncertainty
    badge of both treatments gets one of the three level colours, never the
    slate fallback; so does the readmission badge of a treatment whose
    agent level is absent, empty or mapped to Low, Medium or High. *)
Theorem outcome_badges_coloured (d : Raw.payload) (ag : Raw.agents_t)
  (ca cb : Raw.comparison_side) :
  structured d ag ca cb ->
  exists m,
    transformBackendResponse (Some d) = Return m /\
    (exists c,
       OutcomeCards.getRiskColor
         (Some (Own (Model.uncertainty (Model.outcome_a m)))) = Return c /\
       c <> "text-slate-600 dark:text-slate-400 border-slate-500") /\
    (exists c,
       OutcomeCards.getRiskColor
         (Some (Own (Model.uncertainty (Model.outcome_b m)))) = Return c /\
       c <> "text-slate-600 dark:text-slate-400 border-slate-500") /\
    (level_ok (riskA ag) ->
     exists c,
       OutcomeCards.getRiskColor
         (Some (Model.readmission_risk (Model.outcome_a m))) = Return c /\
       c <> "text-slate-600 dark:text-slate-400 border-slate-500") /\
    (level_ok (riskB ag) ->
     exists c,
       OutcomeCards.getRiskColor
         (Some (Model.readmission_risk (Model.outcome_b m))) = Return c /\
       c <> "text-slate-600 dark:text-slate-400 border-slate-500").
Proof.
  intros Hs.
  destruct (transform_risk_increases Hs) as (m & Hm & Ha & Hb & _).
  exists m. split; [exact Hm|]. rewrite Ha, Hb.
  cbn [outcomeOf Model.uncertainty Model.readmission_risk].
  split; [apply getRiskColor_level, calculateUncertainty_level|].
  split; [apply getRiskColor_level, calculateUncertainty_level|].
  split; intros Hl; apply getRiskColor_label;
    now apply outcome_readmission_level.
Qed.

Lemma outcome_badges_coloured_witness :
  exists m,
    transformBackendResponse (Some More.reportingPayload) = Return m /\
    exists c,
      OutcomeCards.getRiskColor
        (Some (Own (Model.uncertainty (Model.outcome_a m)))) = Return c /\
      c <> "text-slate-600 dark:text-slate-400 border-slate-500".
Proof.
  destruct (@outcome_badges_coloured More.reportingPayload
              More.reportingAgents Examples.documentedSide
              More.secondSide) as (m & Hm & Hu & _).
  - split; [reflexivity|]. eexists. repeat split.
  - exists m. split; assumption.
Defined.

End Increases.
